(** * contracts/deploy.py: deployment and smoke test of the Medical NFT contract

    A shallow embedding of [src/contracts/deploy.py].  The script is a
    straight-line sequence of calls into the starknet_py SDK, the file
    system and the console.  Everything outside the script (SDK, files) is
    an oracle, the [World]; the script itself is embedded in a small
    trace-and-exception monad, so that every run leaves the list of the
    operations it performed together with the answer each one received.

    Conventions.  A call into the SDK or the file system may raise, as any
    Python call may; [print] and [hex] do not.  [await f(...)] is a call
    whose answer is there before the next statement starts, and
    [asyncio.run(f())] is the call of [f]: the source starts no task and
    gathers none.  The imports are taken to succeed.  The two constants
    the source tells its user to replace are parameters of the script; the
    others are the constants of the source. *)

From Stdlib Require Import ZArith List String Ascii Bool Lia.
From Stdlib Require Import HexString.
From Stdlib Require Import Floats.

#[local] Set Warnings "-register-all".
Import ListNotations.
Local Open Scope string_scope.
Local Open Scope Z_scope.

(** ** Python values *)

(** The line feed, for the [\n] escapes of the source. *)
Definition LF : string := String (ascii_of_nat 10) EmptyString.

(** [hex(n)] of Python: [0x] and lower-case digits, a leading [-] for a
    negative number. *)
Definition hex (n : Z) : string := HexString.of_Z n.

(** [int(x)] of a Python float (an IEEE binary64): truncation toward zero.
    It is used on a finite literal only; for an infinity or a NaN, where
    Python raises, the value here is 0. *)
Definition int (f : float) : Z :=
  match Prim2SF f with
  | S754_finite s m e =>
      let a := match e with
               | Z0 => Zpos m
               | Zpos p => Zpos m * 2 ^ Zpos p
               | Zneg p => Zpos m / 2 ^ Zpos p
               end in
      if s then - a else a
  | _ => 0
  end.

(** Exceptions.  An exception is known by the classes it is an instance of
    (the method resolution order of its class, as names) and by [str(e)];
    [SystemExit] also carries the exit status. *)
Inductive exn : Type :=
| Exn (mro : list string) (msg : string)
| SystemExit (code : Z).

Definition exn_mro (e : exn) : list string :=
  match e with
  | Exn mro _ => mro
  | SystemExit _ => ["SystemExit"; "BaseException"; "object"]
  end.

(** [str(e)], what an f-string prints for [{e}]. *)
Definition str_exn (e : exn) : string :=
  match e with
  | Exn _ msg => msg
  | SystemExit _ => EmptyString
  end.

(** [isinstance(e, C)], the test of an [except C] clause. *)
Definition isinstance (e : exn) (C : string) : bool :=
  existsb (String.eqb C) (exn_mro e).

Definition IndexError (msg : string) : exn :=
  Exn ["IndexError"; "LookupError"; "Exception"; "BaseException"; "object"] msg.
Definition KeyError (msg : string) : exn :=
  Exn ["KeyError"; "LookupError"; "Exception"; "BaseException"; "object"] msg.
Definition TypeError (msg : string) : exn :=
  Exn ["TypeError"; "Exception"; "BaseException"; "object"] msg.
Definition AttributeError (msg : string) : exn :=
  Exn ["AttributeError"; "Exception"; "BaseException"; "object"] msg.
Definition ValueError (msg : string) : exn :=
  Exn ["ValueError"; "Exception"; "BaseException"; "object"] msg.
Definition FileNotFoundError (msg : string) : exn :=
  Exn ["FileNotFoundError"; "OSError"; "Exception"; "BaseException"; "object"] msg.
Definition KeyboardInterrupt : exn :=
  Exn ["KeyboardInterrupt"; "BaseException"; "object"] EmptyString.

(** The result of a Python expression or call. *)
Inductive result (A : Type) : Type :=
| Ok (a : A)
| Raise (e : exn).
Arguments Ok {A} a.
Arguments Raise {A} e.

(** What [json.load] returns and [json.dump] takes.  An object is the list
    of its items in insertion order, as a Python dict keeps them. *)
Inductive json : Type :=
| JNull
| JBool (b : bool)
| JNum (n : Z)
| JStr (s : string)
| JArr (l : list json)
| JObj (items : list (string * json)).

Fixpoint assoc {A : Type} (k : string) (l : list (string * A)) : option A :=
  match l with
  | [] => None
  | (k', v) :: l' => if String.eqb k k' then Some v else assoc k l'
  end.

(** [d[key]] for a string key: a dict looks the key up, anything else
    refuses a string subscript. *)
Definition json_getitem (d : json) (key : string) : result json :=
  match d with
  | JObj items =>
      match assoc key items with
      | Some v => Ok v
      | None => Raise (KeyError ("'" ++ key ++ "'"))
      end
  | JArr _ => Raise (TypeError "list indices must be integers or slices, not str")
  | JStr _ => Raise (TypeError "string indices must be integers")
  | _ => Raise (TypeError "object is not subscriptable")
  end.

(** [l[i]] for a list. *)
Definition list_getitem {A : Type} (l : list A) (i : nat) : result A :=
  match nth_error l i with
  | Some a => Ok a
  | None => Raise (IndexError "list index out of range")
  end.

(** Truthiness of what [deploy_contract] returns: [None] and [0] are
    false. *)
Definition truthy (v : option Z) : bool :=
  match v with
  | None => false
  | Some a => negb (a =? 0)
  end.

(** ** The SDK's objects, as far as the script looks into them *)

Record FullNodeClient : Type := { node_url : string }.

Record KeyPair : Type := { private_key : Z; public_key : Z }.

Inductive StarknetChainId : Type := MAINNET | SEPOLIA | SEPOLIA_INTEGRATION.

(** [account.address] and [account.client]. *)
Record Account : Type :=
  { account_address : Z; account_client : FullNodeClient }.

Record Call : Type :=
  { to_addr : Z; selector : string; calldata : list Z }.

(** What [sign_declare_v2] gives back. *)
Record DeclareResult : Type :=
  { declare_transaction_hash : Z; class_hash : Z }.

(** What [sign_invoke_v1] and a contract function's [invoke_v1] give back. *)
Record InvokeResult : Type := { transaction_hash : Z }.

Record Event : Type :=
  { from_address : Z; keys : list Z; data : list Z }.

Record TransactionReceipt : Type := { events : list Event }.

(** A [Contract] with the names of the functions its ABI declares. *)
Record Contract : Type :=
  { contract_address : Z; functions : list string }.

(** [contract.functions[name]]. *)
Record ContractFunction : Type :=
  { cf_contract : Contract; cf_name : string }.

(** The result of a read-only call: its attributes, each with the text an
    f-string prints for it, and the text of the whole. *)
Record CallResult : Type :=
  { cr_attrs : list (string * string); cr_str : string }.

Record File : Type := { file_name : string; file_mode : string; fileno : Z }.

Definition functions_getitem (c : Contract) (name : string)
  : result ContractFunction :=
  if existsb (String.eqb name) (functions c)
  then Ok {| cf_contract := c; cf_name := name |}
  else Raise (KeyError ("'" ++ name ++ "'")).

Definition getattr (r : CallResult) (name : string) : result string :=
  match assoc name (cr_attrs r) with
  | Some s => Ok s
  | None => Raise (AttributeError ("object has no attribute '" ++ name ++ "'"))
  end.

(** ** Operations on the outside world *)

(** One constructor per SDK or file operation the script performs, indexed
    by the type of what it returns. *)
Inductive op : Type -> Type :=
| NewFullNodeClient (url : string) : op FullNodeClient
| KeyPair_from_private_key (key : string) : op KeyPair
| NewAccount (addr : string) (c : FullNodeClient) (kp : KeyPair)
    (chain : StarknetChainId) : op Account
| Open (path mode : string) : op File
| Close (f : File) : op unit
| JsonLoad (f : File) : op json
| JsonDump (obj : json) (f : File) (indent : Z) : op unit
| SignDeclareV2 (a : Account) (compiled_contract : json) (max_fee : Z)
    : op DeclareResult
| SignInvokeV1 (a : Account) (calls : list Call) (max_fee : Z)
    : op InvokeResult
| WaitForTx (c : FullNodeClient) (tx_hash : Z) : op unit
| GetTransactionReceipt (c : FullNodeClient) (tx_hash : Z)
    : op TransactionReceipt
| NewContract (addr : Z) (abi : json) (provider : Account) : op Contract
| FunctionCall (f : ContractFunction) (args : list (string * Z))
    : op CallResult
| FunctionInvokeV1 (f : ContractFunction) (args : list (string * Z))
    (max_fee : Z) : op InvokeResult.

(** What a run leaves behind: the lines printed and the operations
    performed, each with the answer it got. *)
Inductive event : Type :=
| EPrint (line : string)
| ECall {X : Type} (o : op X) (r : result X).

(** A trace: events in the order they happened. *)
Definition trace : Type := list event.

(** The outside world answers an operation, knowing all that happened
    before it. *)
Definition World : Type := forall X : Type, trace -> op X -> result X.

(** ** The monad of the script *)

(** A computation is started after some history and gives a result and the
    events it added. *)
Definition M (A : Type) : Type := trace -> result A * trace.

Definition ret {A : Type} (a : A) : M A := fun _ => (Ok a, []).

Definition raise {A : Type} (e : exn) : M A := fun _ => (Raise e, []).

Definition bind {A B : Type} (m : M A) (k : A -> M B) : M B :=
  fun h =>
    match m h with
    | (Ok a, t) => let (r, t') := k a (h ++ t)%list in (r, (t ++ t')%list)
    | (Raise e, t) => (Raise e, t)
    end.

(** A pure expression that may raise. *)
Definition lift {A : Type} (r : result A) : M A := fun _ => (r, []).

Definition print (line : string) : M unit :=
  fun _ => (Ok tt, [EPrint line]).

(** An awaited call: the world's answer is there before the script goes
    on, and is logged with the request. *)
Definition call (W : World) {X : Type} (o : op X) : M X :=
  fun h => let r := W X h o in (r, [ECall o r]).

(** [try: m  except C as e: handler] *)
Definition try_except {A : Type} (m : M A) (C : string)
  (handler : exn -> M A) : M A :=
  fun h =>
    match m h with
    | (Ok a, t) => (Ok a, t)
    | (Raise e, t) =>
        if isinstance e C
        then let (r, t') := handler e (h ++ t)%list in (r, (t ++ t')%list)
        else (Raise e, t)
    end.

(** Leaving a [with] block: the file is closed, also when the body raised;
    an exception of the close wins. *)
Definition closing (W : World) {A : Type} (f : File) (body : M A) : M A :=
  fun h =>
    let (r, t) := body h in
    match W unit (h ++ t)%list (Close f) with
    | Ok u => (r, (t ++ [ECall (Close f) (Ok u)])%list)
    | Raise e => (Raise e, (t ++ [ECall (Close f) (Raise e)])%list)
    end.

(** [with open(path, mode) as f: body] *)
Definition with_open (W : World) {A : Type} (path mode : string)
  (body : File -> M A) : M A :=
  bind (call W (Open path mode)) (fun f => closing W f (body f)).

(** The world gave answer [r] to operation [o] at some point. *)
Definition answered (W : World) {X : Type} (o : op X) (r : result X) : Prop :=
  exists h, W X h o = r.

Declare Scope py_scope.
Delimit Scope py_scope with py.
Notation "x <- m ;; k" := (bind m (fun x => k))
  (at level 100, m at next level, right associativity) : py_scope.
Notation "m ;;; k" := (bind m (fun _ => k))
  (at level 100, right associativity) : py_scope.
Local Open Scope py_scope.

(** ** The script *)

(** The two constants the source asks its user to replace. *)
Record Config : Type :=
  { ACCOUNT_ADDRESS : string; PRIVATE_KEY : string }.

(** The constants as the source has them. *)
Definition source_config : Config :=
  {| ACCOUNT_ADDRESS := "YOUR_ACCOUNT_ADDRESS_HERE";
     PRIVATE_KEY := "YOUR_PRIVATE_KEY_HERE" |}.

Definition TESTNET_RPC_URL : string :=
  "https://starknet-sepolia.public.blastapi.io/rpc/v0_7".
Definition CONTRACT_COMPILED_PATH : string := "medical_scan_nft_compiled.json".

(** [int(1e16)], the fee ceiling written at each of its three uses. *)
Definition max_fee : Z := int 1e16%float.

Section Script.

Variable W : World.
Variable cfg : Config.

(** The dict [deployment_info]. *)
Definition deployment_info (contract_addr : Z) (declare_result : DeclareResult)
  (deploy_result : InvokeResult) : json :=
  JObj [ ("contract_address", JStr (hex contract_addr));
         ("class_hash", JStr (hex (class_hash declare_result)));
         ("transaction_hash", JStr (hex (transaction_hash deploy_result)));
         ("network", JStr "starknet-sepolia") ].

(** [deploy_contract()]; [None] is the value of the bare [return]. *)
Definition deploy_contract : M (option Z) :=
  print "🏥 Starting Medical NFT Contract Deployment..." ;;;
  client <- call W (NewFullNodeClient TESTNET_RPC_URL) ;;
  key_pair <- call W (KeyPair_from_private_key (PRIVATE_KEY cfg)) ;;
  account <- call W (NewAccount (ACCOUNT_ADDRESS cfg) client key_pair SEPOLIA) ;;
  print ("📱 Using account: " ++ hex (account_address account)) ;;;
  loaded <-
    try_except
      (compiled_contract <-
         with_open W CONTRACT_COMPILED_PATH "r" (fun f => call W (JsonLoad f)) ;;
       ret (Some compiled_contract))
      "FileNotFoundError"
      (fun _ =>
         print ("❌ Contract file not found: " ++ CONTRACT_COMPILED_PATH) ;;;
         print "Make sure you've compiled the contract with 'scarb build'" ;;;
         ret None) ;;
  match loaded with
  | None => ret None
  | Some compiled_contract =>
      print "📄 Contract loaded successfully" ;;;
      print "📤 Declaring contract..." ;;;
      declare_result <- call W (SignDeclareV2 account compiled_contract max_fee) ;;
      call W (WaitForTx (account_client account)
                (declare_transaction_hash declare_result)) ;;;
      print ("✅ Contract declared with class hash: "
             ++ hex (class_hash declare_result)) ;;;
      print "🚀 Deploying contract..." ;;;
      deploy_result <-
        call W (SignInvokeV1 account
                  [ {| to_addr := class_hash declare_result;
                       selector := "constructor";
                       calldata := [] |} ]
                  max_fee) ;;
      call W (WaitForTx (account_client account) (transaction_hash deploy_result)) ;;;
      receipt <-
        call W (GetTransactionReceipt client (transaction_hash deploy_result)) ;;
      event0 <- lift (list_getitem (events receipt) 0) ;;
      let contract_addr := from_address event0 in
      print "🎉 Contract deployed successfully!" ;;;
      print ("📍 Contract Address: " ++ hex contract_addr) ;;;
      print ("🔗 Transaction Hash: " ++ hex (transaction_hash deploy_result)) ;;;
      print ("🏷️  Class Hash: " ++ hex (class_hash declare_result)) ;;;
      with_open W "deployment_info.json" "w" (fun f =>
        call W (JsonDump
                  (deployment_info contract_addr declare_result deploy_result)
                  f 2)) ;;;
      print "💾 Deployment info saved to deployment_info.json" ;;;
      ret (Some contract_addr)
  end.

(** The keyword arguments of the test mint. *)
Definition mint_args : list (string * Z) :=
  [ ("patient_id", 1234567890);
    ("scan_type", 1);
    ("ipfs_hash", 0x1234567890abcdef);
    ("doctor", 0x9876543210fedcba);
    ("upload_timestamp", 1640995200);
    ("diagnosis_summary", 0xabcdef1234567890);
    ("notes", 0xfedcba0987654321) ].

(** [test_contract(contract_address)] *)
Definition test_contract (contract_addr : Z) : M unit :=
  print (LF ++ "🧪 Testing deployed contract...") ;;;
  client <- call W (NewFullNodeClient TESTNET_RPC_URL) ;;
  key_pair <- call W (KeyPair_from_private_key (PRIVATE_KEY cfg)) ;;
  account <- call W (NewAccount (ACCOUNT_ADDRESS cfg) client key_pair SEPOLIA) ;;
  contract_data <-
    with_open W CONTRACT_COMPILED_PATH "r" (fun f => call W (JsonLoad f)) ;;
  abi <- lift (json_getitem contract_data "abi") ;;
  contract <- call W (NewContract contract_addr abi account) ;;
  get_total_supply <- lift (functions_getitem contract "get_total_supply") ;;
  total_supply <- call W (FunctionCall get_total_supply []) ;;
  shown <- lift (getattr total_supply "total_supply") ;;
  print ("📊 Total Supply: " ++ shown) ;;;
  print "🏥 Minting test medical NFT..." ;;;
  mint_medical_nft <- lift (functions_getitem contract "mint_medical_nft") ;;
  mint_tx <- call W (FunctionInvokeV1 mint_medical_nft mint_args max_fee) ;;
  call W (WaitForTx (account_client account) (transaction_hash mint_tx)) ;;;
  print ("✅ NFT minted! Transaction: " ++ hex (transaction_hash mint_tx)) ;;;
  get_total_supply <- lift (functions_getitem contract "get_total_supply") ;;
  total_supply <- call W (FunctionCall get_total_supply []) ;;
  shown <- lift (getattr total_supply "total_supply") ;;
  print ("📊 Total Supply after minting: " ++ shown) ;;;
  get_token_metadata <- lift (functions_getitem contract "get_token_metadata") ;;
  metadata <- call W (FunctionCall get_token_metadata [("token_id", 1)]) ;;
  print ("📋 Token Metadata: " ++ cr_str metadata).

(** The placeholder test of the [__main__] block. *)
Definition placeholders_left : bool :=
  (ACCOUNT_ADDRESS cfg =? "YOUR_ACCOUNT_ADDRESS_HERE")%string
  || (PRIVATE_KEY cfg =? "YOUR_PRIVATE_KEY_HERE")%string.

(** The [try] block of [__main__]. *)
Definition deploy_then_test : M unit :=
  contract_addr <- deploy_contract ;;
  if truthy contract_addr then
    match contract_addr with
    | Some a => test_contract a
    | None => ret tt
    end
  else ret tt.

(** The top-level handler, [except Exception as e]. *)
Definition report_failure (e : exn) : M unit :=
  print ("❌ Deployment failed: " ++ str_exn e) ;;;
  print "Make sure you have enough ETH in your account for gas fees".

(** The first line printed, with the line feed it ends with. *)
Definition main_banner : string :=
  "=== Medical NFT Contract Deployment ===" ++ LF.

(** The [if __name__ == "__main__"] block; [exit(1)] raises
    [SystemExit(1)]. *)
Definition main : M unit :=
  print main_banner ;;;
  (if placeholders_left then
     print "❌ Please configure your account address and private key in the script" ;;;
     print "You can get these from your Starknet wallet (ArgentX or Braavos)" ;;;
     raise (SystemExit 1)
   else ret tt) ;;;
  try_except deploy_then_test "Exception" report_failure.

End Script.

(** How the interpreter ends: an exit status, or an exception nobody
    caught. *)
Inductive termination : Type :=
| Exit (status : Z)
| Uncaught (e : exn).

Definition terminate (r : result unit) : termination :=
  match r with
  | Ok _ => Exit 0
  | Raise (SystemExit code) => Exit code
  | Raise e => Uncaught e
  end.

(** A run of the script in a fresh process: how it ends and what it did. *)
Definition script (W : World) (cfg : Config) : termination * trace :=
  let (r, t) := main W cfg [] in (terminate r, t).

(** ** Reading a trace *)

(** The lines printed. *)
Fixpoint printed (t : trace) : list string :=
  match t with
  | [] => []
  | EPrint s :: t' => s :: printed t'
  | ECall _ _ :: t' => printed t'
  end.

(** A blockchain operation with what the node answered. *)
Inductive net_op : Type :=
| NDeclare (max_fee : Z) (r : result DeclareResult)
| NInvoke (calls : list Call) (max_fee : Z) (r : result InvokeResult)
| NWait (tx_hash : Z) (r : result unit)
| NReceipt (tx_hash : Z) (r : result TransactionReceipt)
| NCall (name : string) (args : list (string * Z)) (r : result CallResult)
| NFunctionInvoke (name : string) (args : list (string * Z)) (max_fee : Z)
    (r : result InvokeResult).

Definition net_op_of {X : Type} (o : op X) : result X -> option net_op :=
  match o in op X return result X -> option net_op with
  | SignDeclareV2 _ _ fee => fun r => Some (NDeclare fee r)
  | SignInvokeV1 _ calls fee => fun r => Some (NInvoke calls fee r)
  | WaitForTx _ h => fun r => Some (NWait h r)
  | GetTransactionReceipt _ h => fun r => Some (NReceipt h r)
  | FunctionCall f args => fun r => Some (NCall (cf_name f) args r)
  | FunctionInvokeV1 f args fee =>
      fun r => Some (NFunctionInvoke (cf_name f) args fee r)
  | _ => fun _ => None
  end.

(** The blockchain operations of a trace, in order. *)
Fixpoint network (t : trace) : list net_op :=
  match t with
  | [] => []
  | EPrint _ :: t' => network t'
  | ECall o r :: t' =>
      match net_op_of o r with
      | Some n => n :: network t'
      | None => network t'
      end
  end.

(** The files opened: path, mode and what [open] gave. *)
Fixpoint opened (t : trace) : list (string * string * result File) :=
  match t with
  | [] => []
  | EPrint _ :: t' => opened t'
  | ECall o r :: t' =>
      match o in op X return result X -> list (string * string * result File)
      with
      | Open path mode => fun r => (path, mode, r) :: opened t'
      | _ => fun _ => opened t'
      end r
  end.

(** What [json.dump] was given: the object and the file it went to. *)
Fixpoint dumped (t : trace) : list (json * File) :=
  match t with
  | [] => []
  | EPrint _ :: t' => dumped t'
  | ECall o _ :: t' =>
      match o with
      | JsonDump obj f _ => (obj, f) :: dumped t'
      | _ => dumped t'
      end
  end.

(** ** Some worlds *)

(** A node where everything works: one event in the deploy receipt, and a
    total supply that counts the mints so far. *)
Definition mints (t : trace) : nat :=
  List.length (filter (fun n => match n with NFunctionInvoke _ _ _ (Ok _) => true
                                   | _ => false end) (network t)).

Definition fine_world : World :=
  fun X h o =>
    match o in op X return result X with
    | NewFullNodeClient url => Ok {| node_url := url |}
    | KeyPair_from_private_key key =>
        Ok {| private_key := HexString.to_Z key; public_key := 0x9b |}
    | NewAccount addr c _ _ =>
        Ok {| account_address := HexString.to_Z addr; account_client := c |}
    | Open path mode => Ok {| file_name := path; file_mode := mode; fileno := 3 |}
    | Close _ => Ok tt
    | JsonLoad _ => Ok (JObj [("abi", JArr []); ("program", JObj [])])
    | JsonDump _ _ _ => Ok tt
    | SignDeclareV2 _ _ _ =>
        Ok {| declare_transaction_hash := 0xd1; class_hash := 0xc1a55 |}
    | SignInvokeV1 _ _ _ => Ok {| transaction_hash := 0xd2 |}
    | WaitForTx _ _ => Ok tt
    | GetTransactionReceipt _ _ =>
        Ok {| events := [ {| from_address := 0xadd7; keys := []; data := [] |} ] |}
    | NewContract addr _ _ =>
        Ok {| contract_address := addr;
              functions := ["get_total_supply"; "mint_medical_nft";
                            "get_token_metadata"] |}
    | FunctionCall f _ =>
        Ok {| cr_attrs := [("total_supply",
                            if Nat.eqb (mints h) 0 then "0" else "1")];
              cr_str := "(metadata)" |}
    | FunctionInvokeV1 _ _ _ => Ok {| transaction_hash := 0xd3 |}
    end.

(** A configuration with the placeholders replaced. *)
Definition edited_config : Config :=
  {| ACCOUNT_ADDRESS := "0x1234"; PRIVATE_KEY := "0xabcd" |}.


(** The artifact file is missing and the rest works. *)
Definition no_artifact_world : World :=
  fun X h o =>
    match o in op X return result X with
    | Open path mode =>
        if (path =? CONTRACT_COMPILED_PATH)%string
        then Raise (FileNotFoundError
                      ("[Errno 2] No such file or directory: '" ++ path ++ "'"))
        else fine_world _ h (Open path mode)
    | other => fine_world _ h other
    end.

(** A numeral as [int(s, 0)] takes it; only the hexadecimal ones matter
    here. *)
Definition numeral (s : string) : bool :=
  (HexString.of_Z (HexString.to_Z s) =? s)%string.

(** As [no_artifact_world], and the SDK refuses, as starknet_py does, a
    private key or an address that is not a numeral. *)
Definition strict_world : World :=
  fun X h o =>
    match o in op X return result X with
    | KeyPair_from_private_key key =>
        if numeral key then fine_world _ h (KeyPair_from_private_key key)
        else Raise (ValueError
                      ("invalid literal for int() with base 0: '" ++ key ++ "'"))
    | NewAccount addr c kp chain =>
        if numeral addr then fine_world _ h (NewAccount addr c kp chain)
        else Raise (ValueError
                      ("invalid literal for int() with base 16: '" ++ addr ++ "'"))
    | other => no_artifact_world _ h other
    end.

(** The placeholders replaced, the key by something that is no number. *)
Definition mistyped_key_config : Config :=
  {| ACCOUNT_ADDRESS := "0x1234"; PRIVATE_KEY := "my private key" |}.

(** The placeholders replaced, the address by something that is no
    number. *)
Definition mistyped_address_config : Config :=
  {| ACCOUNT_ADDRESS := "my account"; PRIVATE_KEY := "0xabcd" |}.

(** The user interrupts the script while it waits for a confirmation. *)
Definition interrupted_world : World :=
  fun X h o =>
    match o in op X return result X with
    | WaitForTx _ _ => Raise KeyboardInterrupt
    | other => fine_world _ h other
    end.

(** The deploy transaction's receipt carries no event. *)
Definition no_event_world : World :=
  fun X h o =>
    match o in op X return result X with
    | GetTransactionReceipt _ _ => Ok {| events := [] |}
    | other => fine_world _ h other
    end.

(** The first event of the receipt comes from address 0. *)
Definition zero_address_world : World :=
  fun X h o =>
    match o in op X return result X with
    | GetTransactionReceipt _ _ =>
        Ok {| events := [ {| from_address := 0; keys := []; data := [] |} ] |}
    | other => fine_world _ h other
    end.

(** The receipt [fine_world] gives. *)
Definition fine_receipt : TransactionReceipt :=
  {| events := [ {| from_address := 0xadd7; keys := []; data := [] |} ] |}.

(** The node refuses the declare transaction. *)
Definition ClientError (msg : string) : exn :=
  Exn ["ClientError"; "Exception"; "BaseException"; "object"] msg.

Definition refusing_world : World :=
  fun X h o =>
    match o in op X return result X with
    | SignDeclareV2 _ _ _ =>
        Raise (ClientError "Client failed with code 54: Account balance is too small")
    | other => fine_world _ h other
    end.

(** ** The lines of the script that the properties name *)

Definition start_line : string :=
  "🏥 Starting Medical NFT Contract Deployment...".
Definition not_found_line : string :=
  "❌ Contract file not found: " ++ CONTRACT_COMPILED_PATH.
Definition scarb_line : string :=
  "Make sure you've compiled the contract with 'scarb build'".
Definition configure_line : string :=
  "❌ Please configure your account address and private key in the script".
Definition wallet_line : string :=
  "You can get these from your Starknet wallet (ArgentX or Braavos)".
Definition test_line : string := LF ++ "🧪 Testing deployed contract...".
Definition failed_line (e : exn) : string :=
  "❌ Deployment failed: " ++ str_exn e.
Definition gas_line : string :=
  "Make sure you have enough ETH in your account for gas fees".

(** What the top-level handler prints. *)
Definition handler_trace (e : exn) : trace :=
  [EPrint (failed_line e); EPrint gas_line].

(** ** The runs of [__main__] *)

(** What the [try] statement of [__main__] does with the result of its
    body. *)
Definition handled (r : result unit) : result unit * trace :=
  match r with
  | Ok u => (Ok u, [])
  | Raise e =>
      if isinstance e "Exception" then (Ok tt, handler_trace e)
      else (Raise e, [])
  end.

(** The four ways through [__main__]. *)
Inductive main_run (W : World) (cfg : Config) : result unit -> trace -> Prop :=
| run_placeholders :
    placeholders_left cfg = true ->
    main_run W cfg (Raise (SystemExit 1))
      [EPrint main_banner; EPrint configure_line; EPrint wallet_line]
| run_deploy_raised e td :
    placeholders_left cfg = false ->
    deploy_contract W cfg [EPrint main_banner] = (Raise e, td) ->
    main_run W cfg (fst (handled (Raise e)))
      (EPrint main_banner :: td ++ snd (handled (Raise e)))%list
| run_test_skipped v td :
    placeholders_left cfg = false ->
    deploy_contract W cfg [EPrint main_banner] = (Ok v, td) ->
    truthy v = false ->
    main_run W cfg (Ok tt) (EPrint main_banner :: td)
| run_tested a td rt tt :
    placeholders_left cfg = false ->
    deploy_contract W cfg [EPrint main_banner] = (Ok (Some a), td) ->
    truthy (Some a) = true ->
    test_contract W cfg a (EPrint main_banner :: td) = (rt, tt) ->
    main_run W cfg (fst (handled rt))
      (EPrint main_banner :: td ++ tt ++ snd (handled rt))%list.

(** ** The missing artifact *)

(** The artifact file does not exist: whenever the script may try,
    opening it for reading fails with [FileNotFoundError]. *)
Definition artifact_missing (W : World) : Prop :=
  forall h, exists e,
    W File h (Open CONTRACT_COMPILED_PATH "r") = Raise e
    /\ isinstance e "FileNotFoundError" = true.

(** The operations before the load: client, key pair and account. *)
Definition setup_op {X : Type} (o : op X) : bool :=
  match o with
  | NewFullNodeClient _ | KeyPair_from_private_key _ | NewAccount _ _ _ _ => true
  | _ => false
  end.

(** The event is one of them raising [e]. *)
Definition setup_raising (e : exn) (ev : event) : Prop :=
  match ev with
  | ECall o (Raise e') => setup_op o = true /\ e' = e
  | _ => False
  end.

(** The early return of [deploy_contract]: the two lines about the missing
    file are the last it prints, and it returns [None]. *)
Definition returned_early (r : result (option Z)) (t : trace) : Prop :=
  r = Ok None
  /\ exists acct,
      printed t = [start_line; "📱 Using account: " ++ hex acct;
                   not_found_line; scarb_line].

(** The set-up raised before the load was tried. *)
Definition setup_failed (r : result (option Z)) (t : trace) : Prop :=
  exists e, r = Raise e /\ Exists (setup_raising e) t
            /\ printed t = [start_line].

(** ** What the properties speak of *)

(** The fee ceiling of an operation that bears one. *)
Definition fee_of (n : net_op) : option Z :=
  match n with
  | NDeclare fee _ | NInvoke _ fee _ | NFunctionInvoke _ _ fee _ => Some fee
  | _ => None
  end.

(** The event is no transaction, or one with the ceiling at 10^16. *)
Definition pays_max_fee (ev : event) : Prop :=
  match ev with
  | EPrint _ => True
  | ECall o r =>
      match net_op_of o r with
      | Some n => forall fee, fee_of n = Some fee -> fee = 10 ^ 16
      | None => True
      end
  end.

(** Every event a computation adds has property [P], whatever the world
    answers. *)
Definition emits (P : event -> Prop) {A : Type} (m : M A) : Prop :=
  forall h r t, m h = (r, t) -> Forall P t.

(** The kinds of blockchain operation. *)
Inductive kind : Type :=
| KDeclare
| KWait
| KInvoke
| KReceipt
| KCall (name : string)
| KFunctionInvoke (name : string).

Definition kind_of (n : net_op) : kind :=
  match n with
  | NDeclare _ _ => KDeclare
  | NInvoke _ _ _ => KInvoke
  | NWait _ _ => KWait
  | NReceipt _ _ => KReceipt
  | NCall name _ _ => KCall name
  | NFunctionInvoke name _ _ _ => KFunctionInvoke name
  end.

(** The order of the source: deployment, then smoke test. *)
Definition SEQUENCE : list kind :=
  [ KDeclare; KWait; KInvoke; KWait; KReceipt;
    KCall "get_total_supply"; KFunctionInvoke "mint_medical_nft"; KWait;
    KCall "get_total_supply"; KCall "get_token_metadata" ].

(** The node answered without raising. *)
Definition succeeded (n : net_op) : Prop :=
  match n with
  | NDeclare _ (Ok _) | NInvoke _ _ (Ok _) | NWait _ (Ok _)
  | NReceipt _ (Ok _) | NCall _ _ (Ok _) | NFunctionInvoke _ _ _ (Ok _) => True
  | _ => False
  end.

(** Each operation but the last had succeeded when the next began. *)
Fixpoint each_completed (ops : list net_op) : Prop :=
  match ops with
  | [] => True
  | n :: rest =>
      match rest with
      | [] => True
      | _ :: _ => succeeded n /\ each_completed rest
      end
  end.

(** The hash of the transaction an operation submitted. *)
Definition submitted_hash (n : net_op) : option Z :=
  match n with
  | NDeclare _ (Ok d) => Some (declare_transaction_hash d)
  | NInvoke _ _ (Ok i) => Some (transaction_hash i)
  | NFunctionInvoke _ _ _ (Ok i) => Some (transaction_hash i)
  | _ => None
  end.

(** Each wait is for the transaction submitted just before it. *)
Fixpoint waits_follow (prev : option net_op) (ops : list net_op) : Prop :=
  match ops with
  | [] => True
  | n :: rest =>
      match n with
      | NWait h _ =>
          match prev with
          | Some p => submitted_hash p = Some h
          | None => False
          end
      | _ => True
      end
      /\ waits_follow (Some n) rest
  end.

(** The one call of the deploy transaction. *)
Definition constructor_call (declare_result : DeclareResult) : Call :=
  {| to_addr := class_hash declare_result;
     selector := "constructor";
     calldata := [] |}.

Definition is_invoke (n : net_op) : bool :=
  match n with
  | NInvoke _ _ _ => true
  | _ => false
  end.

(** The smoke test was started: its first line was printed. *)
Definition smoke_test_ran (t : trace) : Prop := In test_line (printed t).

(** A world that never raises. *)
Definition never_raises (W : World) : Prop :=
  forall X h (o : op X), exists x, W X h o = Ok x.

(** Every receipt the node gives carries an event. *)
Definition receipts_have_events (W : World) : Prop :=
  forall h c tx rc,
    W TransactionReceipt h (GetTransactionReceipt c tx) = Ok rc ->
    events rc <> [].

(** The line starts with a line feed, as the first line of the smoke test
    does and no other line of the script. *)
Definition starts_with_LF (s : string) : bool :=
  match s with
  | String c _ => Ascii.eqb c (ascii_of_nat 10)
  | EmptyString => false
  end.

Definition quiet_print (ev : event) : Prop :=
  match ev with
  | EPrint s => starts_with_LF s = false
  | ECall _ _ => True
  end.

(** What the smoke test may do: no declare, deploy invoke or receipt, no
    [json.dump], and no file opened but the artifact, for reading. *)
Definition test_footprint (ev : event) : Prop :=
  match ev with
  | EPrint _ => True
  | ECall o _ =>
      match o with
      | JsonDump _ _ _ | SignDeclareV2 _ _ _ | SignInvokeV1 _ _ _
      | GetTransactionReceipt _ _ => False
      | Open path mode => path = CONTRACT_COMPILED_PATH /\ mode = "r"
      | _ => True
      end
  end.

(** What becomes of a run in which exception [e] leaves the [try] block
    after the events [t0]: an [Exception] is reported and the script ends
    as if nothing had happened; anything else goes on to the
    interpreter. *)
Definition reported (e : exn) (t0 : trace) (s : termination * trace) : Prop :=
  (isinstance e "Exception" = true ->
   s = (Exit 0, (t0 ++ [EPrint (failed_line e); EPrint gas_line])%list))
  /\ (isinstance e "Exception" = false -> s = (terminate (Raise e), t0)).

(** ** More readings of a trace *)

(** The exceptions the world raised, in order. *)
Fixpoint failures (t : trace) : list exn :=
  match t with
  | [] => []
  | EPrint _ :: t' => failures t'
  | ECall _ (Raise e) :: t' => e :: failures t'
  | ECall _ (Ok _) :: t' => failures t'
  end.

(** What an event does to files. *)
Inductive file_op : Type :=
| FOpen (path mode : string) (r : result File)
| FLoad (f : File) (r : result json)
| FDump (obj : json) (f : File) (r : result unit)
| FClose (f : File) (r : result unit)
| FOther.

Definition file_op_of (ev : event) : file_op :=
  match ev with
  | EPrint _ => FOther
  | ECall o r =>
      match o in op X return result X -> file_op with
      | Open path mode => fun r => FOpen path mode r
      | JsonLoad f => fun r => FLoad f r
      | JsonDump obj f _ => fun r => FDump obj f r
      | Close f => fun r => FClose f r
      | _ => fun _ => FOther
      end r
  end.

(** The exceptions raised by file operations, in order. *)
Fixpoint file_failures (t : trace) : list exn :=
  match t with
  | [] => []
  | ev :: t' =>
      match file_op_of ev with
      | FOpen _ _ (Raise e) | FLoad _ (Raise e) | FDump _ _ (Raise e)
      | FClose _ (Raise e) => e :: file_failures t'
      | _ => file_failures t'
      end
  end.

(** The discipline of the [with] statements.  [cur] is the file that is
    open, with whether it has been read or written: a file is opened when
    none is open, then read or written once, then closed, and nothing else
    happens in between; at the end no file is open. *)
Fixpoint bracketed (cur : option (File * bool)) (t : trace) : Prop :=
  match t with
  | [] => cur = None
  | ev :: t' =>
      match file_op_of ev with
      | FOpen _ _ (Ok f) => cur = None /\ bracketed (Some (f, false)) t'
      | FOpen _ _ (Raise _) => cur = None /\ bracketed None t'
      | FLoad f _ | FDump _ f _ =>
          cur = Some (f, false) /\ bracketed (Some (f, true)) t'
      | FClose f _ => cur = Some (f, true) /\ bracketed None t'
      | FOther => cur = None /\ bracketed None t'
      end
  end.

(** What [json.load] read: the file and what came out. *)
Fixpoint loaded (t : trace) : list (File * result json) :=
  match t with
  | [] => []
  | ev :: t' =>
      match file_op_of ev with
      | FLoad f r => (f, r) :: loaded t'
      | _ => loaded t'
      end
  end.

(** What the SDK was asked to build or sign. *)
Inductive sdk_op : Type :=
| SClient (url : string) (r : result FullNodeClient)
| SKeyPair (key : string) (r : result KeyPair)
| SAccount (addr : string) (c : FullNodeClient) (kp : KeyPair)
    (chain : StarknetChainId) (r : result Account)
| SDeclare (signer : Account) (compiled_contract : json)
| SInvoke (signer : Account)
| SContract (addr : Z) (abi : json) (provider : Account) (r : result Contract)
| SFunction (f : ContractFunction).

Definition sdk_op_of (ev : event) : option sdk_op :=
  match ev with
  | EPrint _ => None
  | ECall o r =>
      match o in op X return result X -> option sdk_op with
      | NewFullNodeClient url => fun r => Some (SClient url r)
      | KeyPair_from_private_key key => fun r => Some (SKeyPair key r)
      | NewAccount addr c kp chain => fun r => Some (SAccount addr c kp chain r)
      | SignDeclareV2 a cc _ => fun _ => Some (SDeclare a cc)
      | SignInvokeV1 a _ _ => fun _ => Some (SInvoke a)
      | NewContract addr abi p => fun r => Some (SContract addr abi p r)
      | FunctionCall f _ => fun _ => Some (SFunction f)
      | FunctionInvokeV1 f _ _ => fun _ => Some (SFunction f)
      | _ => fun _ => None
      end r
  end.

Fixpoint sdk (t : trace) : list sdk_op :=
  match t with
  | [] => []
  | ev :: t' =>
      match sdk_op_of ev with
      | Some s => s :: sdk t'
      | None => sdk t'
      end
  end.

(** The account was built from the configuration: a client for the RPC
    URL of the source, the key pair of [PRIVATE_KEY], the address
    [ACCOUNT_ADDRESS], on Sepolia. *)
Definition configured (cfg : Config) (t : trace) (a : Account) : Prop :=
  exists c kp,
    In (SClient TESTNET_RPC_URL (Ok c)) (sdk t)
    /\ In (SKeyPair (PRIVATE_KEY cfg) (Ok kp)) (sdk t)
    /\ In (SAccount (ACCOUNT_ADDRESS cfg) c kp SEPOLIA (Ok a)) (sdk t).

Definition saved_line : string :=
  "💾 Deployment info saved to deployment_info.json".
Definition deployed_line : string := "🎉 Contract deployed successfully!".

Definition is_function_invoke (n : net_op) : bool :=
  match n with
  | NFunctionInvoke _ _ _ _ => true
  | _ => false
  end.

(** The artifact can be read, but what is in it has no [abi]. *)
Definition no_abi_world : World :=
  fun X h o =>
    match o in op X return result X with
    | JsonLoad _ => Ok (JObj [("program", JObj [])])
    | other => fine_world _ h other
    end.

(** The contract the SDK builds has no minting function. *)
Definition no_mint_world : World :=
  fun X h o =>
    match o in op X return result X with
    | NewContract addr _ _ =>
        Ok {| contract_address := addr;
              functions := ["get_total_supply"; "get_token_metadata"] |}
    | other => fine_world _ h other
    end.

(** The artifact is there but is no JSON. *)
Definition JSONDecodeError (msg : string) : exn :=
  Exn ["JSONDecodeError"; "ValueError"; "Exception"; "BaseException"; "object"]
    msg.

Definition malformed_artifact_world : World :=
  fun X h o =>
    match o in op X return result X with
    | JsonLoad _ =>
        Raise (JSONDecodeError "Expecting value: line 1 column 1 (char 0)")
    | other => fine_world _ h other
    end.

(** The summary file cannot be written. *)
Definition PermissionError (msg : string) : exn :=
  Exn ["PermissionError"; "OSError"; "Exception"; "BaseException"; "object"]
    msg.

Definition read_only_world : World :=
  fun X h o =>
    match o in op X return result X with
    | Open path mode =>
        if (mode =? "w")%string
        then Raise (PermissionError
                      ("[Errno 13] Permission denied: '" ++ path ++ "'"))
        else fine_world _ h (Open path mode)
    | other => fine_world _ h other
    end.

(** The mint is refused by the node. *)
Definition mint_refusing_world : World :=
  fun X h o =>
    match o in op X return result X with
    | FunctionInvokeV1 _ _ _ =>
        Raise (ClientError "Client failed with code 40: Contract error")
    | other => fine_world _ h other
    end.

(** ** Inversion of the monad's operations *)

Section Inversion.

Variable W : World.

Lemma ret_inv {A : Type} (a : A) h r t :
  ret a h = (r, t) -> r = Ok a /\ t = [].
Proof. unfold ret. intros H. inversion H. auto. Qed.

Lemma raise_inv {A : Type} (e : exn) h (r : result A) t :
  raise e h = (r, t) -> r = Raise e /\ t = [].
Proof. unfold raise. intros H. inversion H. auto. Qed.

Lemma lift_inv {A : Type} (x : result A) h r t :
  lift x h = (r, t) -> x = r /\ t = [].
Proof. unfold lift. intros H. inversion H. auto. Qed.

Lemma print_inv line h r t :
  print line h = (r, t) -> r = Ok tt /\ t = [EPrint line].
Proof. unfold print. intros H. inversion H. auto. Qed.

Lemma call_inv {X : Type} (o : op X) h r t :
  call W o h = (r, t) -> answered W o r /\ t = [ECall o r].
Proof. unfold call. intros H. inversion H. split; [exists h |]; auto. Qed.

Lemma bind_inv {A B : Type} (m : M A) (k : A -> M B) h r t :
  bind m k h = (r, t) ->
  (exists a t1 t2 h',
      m h = (Ok a, t1) /\ k a h' = (r, t2) /\ t = (t1 ++ t2)%list)
  \/ (exists e, m h = (Raise e, t) /\ r = Raise e).
Proof.
  unfold bind. destruct (m h) as [[a | e] t1].
  - destruct (k a (h ++ t1)%list) as [r2 t2] eqn:Hk. intros H.
    inversion H; subst. left. exists a, t1, t2, (h ++ t1)%list. auto.
  - intros H. inversion H; subst. right. exists e. auto.
Qed.

Lemma try_except_inv {A : Type} (m : M A) C handler h r t :
  try_except m C handler h = (r, t) ->
  (exists a, m h = (Ok a, t) /\ r = Ok a)
  \/ (exists e, m h = (Raise e, t) /\ isinstance e C = false /\ r = Raise e)
  \/ (exists e t1 t2 h',
         m h = (Raise e, t1) /\ isinstance e C = true
         /\ handler e h' = (r, t2) /\ t = (t1 ++ t2)%list).
Proof.
  unfold try_except. destruct (m h) as [[a | e] t1].
  - intros H. inversion H; subst. left. exists a. auto.
  - destruct (isinstance e C) eqn:Hi.
    + destruct (handler e (h ++ t1)%list) as [r2 t2] eqn:Hh. intros H.
      inversion H; subst. right. right. exists e, t1, t2, (h ++ t1)%list. auto.
    + intros H. inversion H; subst. right. left. exists e. auto.
Qed.

Lemma closing_inv {A : Type} (f : File) (body : M A) h r t :
  closing W f body h = (r, t) ->
  exists r0 t0,
    body h = (r0, t0)
    /\ ((exists u, answered W (Close f) (Ok u)
                   /\ r = r0 /\ t = (t0 ++ [ECall (Close f) (Ok u)])%list)
        \/ (exists e, answered W (Close f) (Raise e)
                      /\ r = Raise e
                      /\ t = (t0 ++ [ECall (Close f) (Raise e)])%list)).
Proof.
  unfold closing. destruct (body h) as [r0 t0]. intros H. exists r0, t0.
  split; [reflexivity |].
  destruct (W unit (h ++ t0)%list (Close f)) as [u | e] eqn:Hc;
    inversion H; subst.
  - left. exists u. split; [exists (h ++ t0)%list |]; auto.
  - right. exists e. split; [exists (h ++ t0)%list |]; auto.
Qed.

End Inversion.

(** Reading a run backwards: the hypothesis [H] that a computation gave a
    result is split along the operations of the computation, one goal per
    path through it, with the answers the world gave on that path. *)
Ltac settle H :=
  first
    [ discriminate H
    | progress (injection H as H); settle H
    | match type of H with
      | ?x = _ => is_var x; subst x
      | _ = ?y => is_var y; subst y
      end
    | idtac ].

Ltac run H :=
  lazymatch type of H with
  | ret _ _ = _ =>
      let E := fresh "E" in
      apply ret_inv in H; destruct H as [H E]; settle E; settle H
  | raise _ _ = _ =>
      let E := fresh "E" in
      apply raise_inv in H; destruct H as [H E]; settle E; settle H
  | lift _ _ = _ =>
      let E := fresh "E" in
      apply lift_inv in H; destruct H as [H E]; settle E; settle H
  | print _ _ = _ =>
      let E := fresh "E" in
      apply print_inv in H; destruct H as [H E]; settle E; settle H
  | call _ _ _ = _ =>
      let E := fresh "E" in
      apply call_inv in H; destruct H as [H E]; settle E
  | bind _ _ _ = _ =>
      let Hk := fresh "Hk" in
      let E := fresh "E" in
      apply bind_inv in H;
      destruct H as [(? & ? & ? & ? & H & Hk & E) | (? & H & E)];
      [ settle E; run H; run Hk | settle E; run H ]
  | try_except _ _ _ _ = _ =>
      let Hh := fresh "Hh" in
      let Hi := fresh "Hi" in
      let E := fresh "E" in
      apply try_except_inv in H;
      destruct H as [(? & H & E)
                    | [(? & H & Hi & E) | (? & ? & ? & ? & H & Hi & Hh & E)]];
      [ settle E; run H | settle E; run H | settle E; run H; run Hh ]
  | with_open _ _ _ _ _ = _ => unfold with_open in H; run H
  | closing _ _ _ _ = _ =>
      let Hc := fresh "Hc" in
      let Hr := fresh "Hr" in
      let E := fresh "E" in
      apply closing_inv in H;
      destruct H as (? & ? & H & [(? & Hc & Hr & E) | (? & Hc & Hr & E)]);
      settle E; settle Hr; run H
  | (match ?x with Some _ => _ | None => _ end) _ = _ => destruct x; run H
  | (if ?b then _ else _) _ = _ =>
      let Hb := fresh "Hb" in destruct b eqn:Hb; run H
  | ?f _ _ _ _ = _ => unfold f in H; run H
  | ?f _ _ _ = _ => unfold f in H; run H
  | _ => idtac
  end.

Ltac unit_answers := repeat match goal with u : unit |- _ => destruct u end.

(** Splits membership in a list written out into its cases, dropping the
    impossible ones. *)
Ltac pick H :=
  repeat (destruct H as [H | H]; try discriminate H); try contradiction H.

(** ** The four runs of [__main__] are all there are *)

Lemma main_run_sound W cfg r t :
  main W cfg [] = (r, t) -> main_run W cfg r t.
Proof.
  unfold main, bind, print, try_except, deploy_then_test, bind, raise, ret.
  destruct (placeholders_left cfg) eqn:Hp; cbn [app].
  - intros H. inversion H; subst. now apply run_placeholders.
  - destruct (deploy_contract W cfg [EPrint main_banner]) as [[v | e] td] eqn:Hd.
    + destruct (truthy v) eqn:Hv.
      * destruct v as [a |]; [| discriminate Hv].
        cbn [app].
        destruct (test_contract W cfg a (EPrint main_banner :: td))
          as [rt tt] eqn:Ht.
        intros H.
        assert (E : (r, t) = (fst (handled rt),
                              (EPrint main_banner :: td ++ tt ++ snd (handled rt))%list)).
        { rewrite <- H. destruct rt as [[] | e]; cbn.
          - now rewrite !app_nil_r.
          - unfold report_failure, bind, print.
            destruct (isinstance e "Exception"); cbn;
              now rewrite ?app_nil_r, <- ?app_assoc. }
        inversion E; subst. now apply run_tested with (a := a).
      * intros H. cbn in H. rewrite !app_nil_r in H. inversion H; subst.
        now apply run_test_skipped with (v := v).
    + intros H.
      assert (E : (r, t) = (fst (handled (Raise e)),
                            (EPrint main_banner :: td ++ snd (handled (Raise e)))%list)).
      { rewrite <- H. cbn. unfold report_failure, bind, print.
        destruct (isinstance e "Exception"); cbn; now rewrite ?app_nil_r. }
      inversion E; subst. now apply run_deploy_raised.
Qed.

(** ** Facts about reading a trace *)

Lemma printed_app (t1 t2 : trace) :
  printed (t1 ++ t2)%list = (printed t1 ++ printed t2)%list.
Proof.
  induction t1 as [| [line | X o r] t1 IH]; simpl; [reflexivity | |];
    now rewrite IH.
Qed.

Lemma network_app (t1 t2 : trace) :
  network (t1 ++ t2)%list = (network t1 ++ network t2)%list.
Proof.
  induction t1 as [| [line | X o r] t1 IH]; simpl; auto.
  destruct (net_op_of o r); simpl; now rewrite IH.
Qed.

Lemma dumped_app (t1 t2 : trace) :
  dumped (t1 ++ t2)%list = (dumped t1 ++ dumped t2)%list.
Proof.
  induction t1 as [| [line | X o r] t1 IH]; simpl; auto.
  destruct o; simpl; now rewrite IH.
Qed.

Lemma opened_app (t1 t2 : trace) :
  opened (t1 ++ t2)%list = (opened t1 ++ opened t2)%list.
Proof.
  induction t1 as [| [line | X o r] t1 IH]; simpl; auto.
  destruct o; simpl; now rewrite IH.
Qed.

(** [hex] loses nothing: the number can be read back from the text. *)
Lemma hex_faithful n : HexString.to_Z (hex n) = n.
Proof. apply HexString.to_Z_of_Z. Qed.

(** The float literal [1e16] is the integer it looks like. *)
Lemma max_fee_value : max_fee = 10 ^ 16.
Proof. vm_compute. reflexivity. Qed.

(** ** The placeholder check *)

Lemma placeholders_left_iff cfg :
  placeholders_left cfg = true <->
  ACCOUNT_ADDRESS cfg = "YOUR_ACCOUNT_ADDRESS_HERE"
  \/ PRIVATE_KEY cfg = "YOUR_PRIVATE_KEY_HERE".
Proof.
  unfold placeholders_left. rewrite orb_true_iff, !String.eqb_eq. tauto.
Qed.

(** C4.  In every run in which the account address or the private key is
    still its placeholder, the script prints its banner and the two lines
    of the configuration warning, does nothing else (no deployment step),
    and ends with exit status 1. *)
Theorem placeholder_config_exits (W : World) (cfg : Config) :
  ACCOUNT_ADDRESS cfg = "YOUR_ACCOUNT_ADDRESS_HERE"
  \/ PRIVATE_KEY cfg = "YOUR_PRIVATE_KEY_HERE" ->
  script W cfg
  = (Exit 1, [EPrint main_banner; EPrint configure_line; EPrint wallet_line]).
Proof.
  intros H. apply placeholders_left_iff in H.
  unfold script, main, bind, print, raise. rewrite H. reflexivity.
Qed.

Lemma placeholder_config_exits_witness :
  (ACCOUNT_ADDRESS source_config = "YOUR_ACCOUNT_ADDRESS_HERE"
   \/ PRIVATE_KEY source_config = "YOUR_PRIVATE_KEY_HERE")
  /\ script fine_world source_config
     = (Exit 1, [EPrint main_banner; EPrint configure_line; EPrint wallet_line]).
Proof.
  split; [left; reflexivity |].
  apply (placeholder_config_exits fine_world source_config).
  left. reflexivity.
Defined.

(** ** Runs without the artifact file *)

Lemma artifact_missing_not_opened W f :
  artifact_missing W -> ~ answered W (Open CONTRACT_COMPILED_PATH "r") (Ok f).
Proof.
  intros Hm [h Hh]. destruct (Hm h) as (e & He & _). congruence.
Qed.

Lemma artifact_missing_raises W e :
  artifact_missing W ->
  answered W (Open CONTRACT_COMPILED_PATH "r") (Raise e) ->
  isinstance e "FileNotFoundError" = true.
Proof.
  intros Hm [h Hh]. destruct (Hm h) as (e' & He & Hi). congruence.
Qed.

(** Finds, in a trace written out, the event a property asks for. *)
Ltac find_event :=
  first [ apply Exists_cons_hd; simpl; now auto
        | apply Exists_cons_tl; find_event ].

Ltac absurd_open :=
  match goal with
  | Hm : artifact_missing ?W, H : answered ?W (Open _ _) (Ok _) |- _ =>
      exfalso; exact (artifact_missing_not_opened W _ Hm H)
  | Hm : artifact_missing ?W, H : answered ?W (Open _ _) (Raise ?e),
      Hi : isinstance ?e "FileNotFoundError" = false |- _ =>
      exfalso; rewrite (artifact_missing_raises W e Hm H) in Hi; discriminate Hi
  end.

(** Without the artifact file [deploy_contract] ends in one of two
    ways. *)
Lemma missing_artifact_outcome W cfg h r t :
  artifact_missing W ->
  deploy_contract W cfg h = (r, t) ->
  returned_early r t \/ setup_failed r t.
Proof.
  intros Hm H. unfold deploy_contract in H. run H; try absurd_open.
  all: first
         [ left; split; [reflexivity | eexists; reflexivity]
         | right; eexists; repeat split; find_event ].
Qed.

(** C3, as the code has it.  In every run of [deploy_contract] in which the
    artifact file does not exist, no blockchain operation is performed and
    no summary file is opened or written; and either the set-up of client,
    key pair and account raised, or [deploy_contract] printed the
    file-not-found message and returned early. *)
Theorem missing_artifact_stops_deployment
  (W : World) (cfg : Config) (h : trace) (r : result (option Z)) (t : trace) :
  artifact_missing W ->
  deploy_contract W cfg h = (r, t) ->
  network t = [] /\ dumped t = []
  /\ (forall mode rf, ~ In ("deployment_info.json", mode, rf) (opened t))
  /\ (returned_early r t \/ setup_failed r t).
Proof.
  intros Hm H.
  assert (Hout := missing_artifact_outcome W cfg h r t Hm H).
  unfold deploy_contract in H. run H; try absurd_open.
  all: cbn [network dumped opened net_op_of app] in *.
  all: repeat split; try exact Hout.
  all: intros mode rf Hin; cbn [In] in Hin; pick Hin.
Qed.

Lemma missing_artifact_stops_deployment_witness :
  artifact_missing no_artifact_world
  /\ (network (snd (deploy_contract no_artifact_world edited_config [])) = []
      /\ dumped (snd (deploy_contract no_artifact_world edited_config [])) = []
      /\ (forall mode rf,
             ~ In ("deployment_info.json", mode, rf)
                 (opened (snd (deploy_contract no_artifact_world edited_config []))))
      /\ (returned_early
            (fst (deploy_contract no_artifact_world edited_config []))
            (snd (deploy_contract no_artifact_world edited_config []))
          \/ setup_failed
               (fst (deploy_contract no_artifact_world edited_config []))
               (snd (deploy_contract no_artifact_world edited_config [])))).
Proof.
  assert (Hm : artifact_missing no_artifact_world).
  { intros h. eexists. split; reflexivity. }
  split; [exact Hm |].
  apply (missing_artifact_stops_deployment
           no_artifact_world edited_config [] _ _ Hm).
  apply surjective_pairing.
Defined.

(** A private key that is no number makes the SDK raise before the load:
    the run is one in which the artifact file does not exist, and the
    file-not-found message is not printed, nor does [deploy_contract]
    return. *)
Example mistyped_key_run :
  deploy_contract strict_world mistyped_key_config []
  = (Raise (ValueError
              "invalid literal for int() with base 0: 'my private key'"),
     [EPrint start_line;
      ECall (NewFullNodeClient TESTNET_RPC_URL)
        (Ok {| node_url := TESTNET_RPC_URL |});
      ECall (KeyPair_from_private_key "my private key")
        (Raise (ValueError
                  "invalid literal for int() with base 0: 'my private key'"))]).
Proof. reflexivity. Qed.

Lemma missing_artifact_message_not_always_printed :
  artifact_missing strict_world
  /\ ~ In not_found_line
        (printed (snd (deploy_contract strict_world mistyped_key_config [])))
  /\ fst (deploy_contract strict_world mistyped_key_config []) <> Ok None.
Proof.
  split; [intros h; eexists; split; reflexivity |].
  rewrite mistyped_key_run. simpl. split.
  - intros [E | []]. discriminate E.
  - discriminate.
Qed.

(** ** Properties of every event of a computation *)

Section Emits.

Variable W : World.
Variable P : event -> Prop.

Lemma emits_ret {A : Type} (a : A) : emits P (ret a).
Proof. intros h r t H. apply ret_inv in H as [_ ->]. constructor. Qed.

Lemma emits_raise {A : Type} (e : exn) : emits P (@raise A e).
Proof. intros h r t H. apply raise_inv in H as [_ ->]. constructor. Qed.

Lemma emits_lift {A : Type} (x : result A) : emits P (lift x).
Proof. intros h r t H. apply lift_inv in H as [_ ->]. constructor. Qed.

Lemma emits_print line : P (EPrint line) -> emits P (print line).
Proof. intros Hp h r t H. apply print_inv in H as [_ ->]. auto. Qed.

Lemma emits_call {X : Type} (o : op X) :
  (forall r, P (ECall o r)) -> emits P (call W o).
Proof. intros Hp h r t H. apply (call_inv W) in H as [_ ->]. auto. Qed.

Lemma emits_bind {A B : Type} (m : M A) (k : A -> M B) :
  emits P m -> (forall a, emits P (k a)) -> emits P (bind m k).
Proof.
  intros Hm Hk h r t H.
  apply bind_inv in H as [(a & t1 & t2 & h' & H1 & H2 & ->) | (e & H1 & _)].
  - apply Forall_app. split; [exact (Hm _ _ _ H1) | exact (Hk _ _ _ _ H2)].
  - exact (Hm _ _ _ H1).
Qed.

Lemma emits_try_except {A : Type} (m : M A) C handler :
  emits P m -> (forall e, emits P (handler e)) ->
  emits P (try_except m C handler).
Proof.
  intros Hm Hh h r t H.
  apply try_except_inv in H
      as [(a & H1 & _)
         | [(e & H1 & _) | (e & t1 & t2 & h' & H1 & _ & H2 & ->)]].
  - exact (Hm _ _ _ H1).
  - exact (Hm _ _ _ H1).
  - apply Forall_app. split; [exact (Hm _ _ _ H1) | exact (Hh _ _ _ _ H2)].
Qed.

Lemma emits_closing {A : Type} (f : File) (body : M A) :
  (forall r, P (ECall (Close f) r)) -> emits P body ->
  emits P (closing W f body).
Proof.
  intros Hc Hb h r t H.
  apply (closing_inv W) in H
      as (r0 & t0 & H0 & [(u & _ & _ & ->) | (e & _ & _ & ->)]);
    apply Forall_app; split; try exact (Hb _ _ _ H0); auto.
Qed.

Lemma emits_with_open {A : Type} path mode (body : File -> M A) :
  (forall r, P (ECall (Open path mode) r)) ->
  (forall f r, P (ECall (Close f) r)) ->
  (forall f, emits P (body f)) ->
  emits P (with_open W path mode body).
Proof.
  intros Ho Hc Hb. unfold with_open. apply emits_bind.
  - now apply emits_call.
  - intros f. apply emits_closing; auto.
Qed.

End Emits.

(** Walks through a computation, leaving the events to be checked. *)
Ltac emits_walk :=
  repeat
    first
      [ apply emits_ret | apply emits_raise | apply emits_lift
      | apply emits_with_open; [intros ? | intros ? ? | intros ?]
      | apply emits_try_except; [| intros ?]
      | apply emits_bind; [| intros ?]
      | apply emits_print
      | apply emits_call; intros ?
      | match goal with
        | |- emits _ (match ?x with Some _ => _ | None => _ end) => destruct x
        | |- emits _ (if ?b then _ else _) => destruct b
        end ].

Lemma pays_max_fee_network t :
  Forall pays_max_fee t ->
  forall n fee, In n (network t) -> fee_of n = Some fee -> fee = 10 ^ 16.
Proof.
  induction 1 as [| ev t Hev _ IH]; simpl; [contradiction |].
  destruct ev as [line | X o r]; auto.
  simpl in Hev. destruct (net_op_of o r) as [n0 |]; auto.
  intros n fee [<- | Hin]; eauto.
Qed.

Lemma main_pays_max_fee W cfg : emits pays_max_fee (main W cfg).
Proof.
  unfold main, deploy_then_test, report_failure, deploy_contract,
    test_contract.
  emits_walk; simpl; auto; intros fee Hfee; inversion Hfee.
  all: exact max_fee_value.
Qed.

(** C8.  Every fee-bearing transaction the script submits, in any run,
    (the declare, the deploy invoke and the mint of the smoke test are the
    ones that bear a fee) has the fee ceiling [int(1e16)], which is exactly
    10^16. *)
Theorem every_transaction_pays_max_fee (W : World) (cfg : Config) :
  max_fee = 10 ^ 16
  /\ forall n fee,
      In n (network (snd (script W cfg))) -> fee_of n = Some fee ->
      fee = 10 ^ 16.
Proof.
  split; [apply max_fee_value |].
  unfold script. destruct (main W cfg []) as [r t] eqn:H. simpl.
  apply pays_max_fee_network. exact (main_pays_max_fee W cfg _ _ _ H).
Qed.

(** ** The deployment procedure *)

(** C1.  In every run of [deploy_contract]: once the deploy transaction,
    the fourth blockchain operation, is confirmed, the next operation
    fetches the receipt of that same transaction; and when a receipt is
    got, it is that one, the value [deploy_contract] returns is the
    [from_address] of the receipt's event at index 0, and the summary
    written records that address, in hex, as [contract_address]. *)
Theorem deployed_address_is_first_event
  (W : World) (cfg : Config) (h : trace) (r : result (option Z)) (t : trace) :
  deploy_contract W cfg h = (r, t) ->
  (forall tx u,
      nth_error (network t) 3 = Some (NWait tx (Ok u)) ->
      exists answer, nth_error (network t) 4 = Some (NReceipt tx answer))
  /\ (forall tx receipt,
         In (NReceipt tx (Ok receipt)) (network t) ->
         (exists declare_result deploy_result,
             network t
             = [ NDeclare max_fee (Ok declare_result);
                 NWait (declare_transaction_hash declare_result) (Ok tt);
                 NInvoke [constructor_call declare_result] max_fee
                   (Ok deploy_result);
                 NWait (transaction_hash deploy_result) (Ok tt);
                 NReceipt (transaction_hash deploy_result) (Ok receipt) ]
             /\ tx = transaction_hash deploy_result)
         /\ (forall v, r = Ok v ->
               exists ev, list_getitem (events receipt) 0 = Ok ev
                          /\ v = Some (from_address ev))
         /\ (forall obj f, In (obj, f) (dumped t) ->
               exists ev, list_getitem (events receipt) 0 = Ok ev
                          /\ json_getitem obj "contract_address"
                             = Ok (JStr (hex (from_address ev))))).
Proof.
  intros H. unfold deploy_contract in H. run H.
  all: unit_answers; cbn [network dumped net_op_of app].
  all: split;
    [ intros tx u Hn; cbn [nth_error] in Hn; try discriminate Hn;
      injection Hn as <-; eexists; reflexivity
    | intros tx receipt Hin; cbn [In] in Hin; pick Hin ].
  all: injection Hin as <- <-.
  all: split; [eexists _, _; split; reflexivity |].
  all: split; [intros v Hv; try discriminate Hv; injection Hv as <-; eauto |].
  all: intros obj f Hd; cbn [In] in Hd; pick Hd; injection Hd as <- <-; eauto.
Qed.

Lemma deployed_address_is_first_event_witness :
  fst (deploy_contract fine_world edited_config []) = Ok (Some 0xadd7)
  /\ In (NReceipt 0xd2 (Ok fine_receipt))
        (network (snd (deploy_contract fine_world edited_config [])))
  /\ (forall v, fst (deploy_contract fine_world edited_config []) = Ok v ->
        exists ev, list_getitem (events fine_receipt) 0 = Ok ev
                   /\ v = Some (from_address ev)).
Proof.
  assert (Hin : In (NReceipt 0xd2 (Ok fine_receipt))
                  (network (snd (deploy_contract fine_world edited_config [])))).
  { vm_compute. tauto. }
  split; [reflexivity |]. split; [exact Hin |].
  apply (proj2 (deployed_address_is_first_event fine_world edited_config []
                  (fst (deploy_contract fine_world edited_config []))
                  (snd (deploy_contract fine_world edited_config []))
                  (surjective_pairing _))
           0xd2 fine_receipt Hin).
Defined.

(** When nothing raises and the receipt carries an event,
    [deploy_contract] returns an address. *)
Lemma deploy_contract_completes W cfg h :
  never_raises W -> receipts_have_events W ->
  exists a t, deploy_contract W cfg h = (Ok (Some a), t).
Proof.
  intros Hn He.
  assert (Hno : forall X (o : op X) e, ~ answered W o (Raise e)).
  { intros X o e [h' Hh]. destruct (Hn X h' o) as [x Hx]. congruence. }
  destruct (deploy_contract W cfg h) as [r t] eqn:H.
  unfold deploy_contract in H. run H;
    try (exfalso; eapply Hno; eassumption).
  - eauto.
  - exfalso.
    match goal with
    | Hr : answered W (GetTransactionReceipt _ _) (Ok ?rc),
      Hg : list_getitem (events ?rc) 0 = Raise _ |- _ =>
        destruct Hr as [h' Hr]; apply He in Hr;
        unfold list_getitem in Hg; destruct (events rc); [congruence |];
        discriminate Hg
    end.
Qed.

(** C2.  In every run of [deploy_contract], an invoke transaction that is
    submitted is the only one, comes after the declare transaction and its
    confirmation, and has one call: to the class hash the declare step
    returned, with selector [constructor] and no calldata; and a run that
    returns an address has submitted it. *)
Theorem deploy_invokes_constructor
  (W : World) (cfg : Config) (h : trace) (r : result (option Z)) (t : trace) :
  deploy_contract W cfg h = (r, t) ->
  (forall calls fee answer,
      In (NInvoke calls fee answer) (network t) ->
      exists declare_result,
        firstn 3 (network t)
        = [ NDeclare max_fee (Ok declare_result);
            NWait (declare_transaction_hash declare_result) (Ok tt);
            NInvoke calls fee answer ]
        /\ calls = [ {| to_addr := class_hash declare_result;
                        selector := "constructor";
                        calldata := [] |} ]
        /\ List.length (filter is_invoke (network t)) = 1%nat)
  /\ (forall a, r = Ok (Some a) ->
        exists calls fee deploy_result,
          In (NInvoke calls fee (Ok deploy_result)) (network t)).
Proof.
  intros H. unfold deploy_contract in H. run H.
  all: unit_answers; cbn [network net_op_of app].
  all: split;
    [ intros calls fee answer Hin; cbn [In] in Hin; pick Hin;
      injection Hin as <- <- <-; eexists; repeat split
    | intros a Ha; try discriminate Ha;
      eexists _, _, _; cbn [In]; eauto 8 ].
Qed.

Lemma deploy_invokes_constructor_witness :
  fst (deploy_contract fine_world edited_config []) = Ok (Some 0xadd7)
  /\ exists calls fee deploy_result,
      In (NInvoke calls fee (Ok deploy_result))
         (network (snd (deploy_contract fine_world edited_config []))).
Proof.
  split; [reflexivity |].
  apply (proj2 (deploy_invokes_constructor fine_world edited_config []
                  (fst (deploy_contract fine_world edited_config []))
                  (snd (deploy_contract fine_world edited_config []))
                  (surjective_pairing _)) 0xadd7).
  reflexivity.
Defined.

(** ** What the two procedures leave in a trace *)

Lemma starts_with_LF_not_ran t :
  Forall quiet_print t -> ~ smoke_test_ran t.
Proof.
  unfold smoke_test_ran.
  induction 1 as [| ev t Hev _ IH]; simpl; [tauto |].
  destruct ev as [line | X o r]; simpl; [| exact IH].
  intros [E | Hin]; [| tauto]. simpl in Hev. rewrite E in Hev.
  discriminate Hev.
Qed.

Lemma deploy_contract_quiet W cfg : emits quiet_print (deploy_contract W cfg).
Proof. unfold deploy_contract. emits_walk; simpl; auto. Qed.

Lemma handler_quiet r : Forall quiet_print (snd (handled r)).
Proof.
  destruct r as [u | e]; simpl; [constructor |].
  destruct (isinstance e "Exception"); simpl; repeat constructor.
Qed.

Lemma test_contract_footprint W cfg a :
  emits test_footprint (test_contract W cfg a).
Proof. unfold test_contract. emits_walk; simpl; auto. Qed.

Lemma footprint_dumped t : Forall test_footprint t -> dumped t = [].
Proof.
  induction 1 as [| ev t Hev _ IH]; simpl; [reflexivity |].
  destruct ev as [line | X o r]; auto. destruct o; simpl in *; tauto.
Qed.

Lemma footprint_opened t :
  Forall test_footprint t ->
  forall path mode rf, In (path, mode, rf) (opened t) ->
                       path = CONTRACT_COMPILED_PATH /\ mode = "r"%string.
Proof.
  induction 1 as [| ev t Hev _ IH]; simpl; [contradiction |].
  destruct ev as [line | X o r]; auto.
  destruct o; simpl in *; auto.
  intros p m rf [E | Hin]; [| eauto]. inversion E; subst. exact Hev.
Qed.

Lemma footprint_network t :
  Forall test_footprint t ->
  forall n, In n (network t) ->
            match n with
            | NDeclare _ _ | NInvoke _ _ _ | NReceipt _ _ => False
            | _ => True
            end.
Proof.
  induction 1 as [| ev t Hev _ IH]; simpl; [contradiction |].
  destruct ev as [line | X o r]; auto.
  destruct o; simpl in *; auto; try contradiction;
    intros n [<- | Hin]; simpl; auto; exact (IH _ Hin).
Qed.

Lemma handler_network r : network (snd (handled r)) = [].
Proof.
  destruct r as [u | e]; simpl; [reflexivity |].
  now destruct (isinstance e "Exception").
Qed.

Lemma handler_dumped r : dumped (snd (handled r)) = [].
Proof.
  destruct r as [u | e]; simpl; [reflexivity |].
  now destruct (isinstance e "Exception").
Qed.

Lemma handler_opened r : opened (snd (handled r)) = [].
Proof.
  destruct r as [u | e]; simpl; [reflexivity |].
  now destruct (isinstance e "Exception").
Qed.

(** ** The empty receipt *)

Lemma empty_receipt_in_deploy W cfg h r t tx receipt :
  deploy_contract W cfg h = (r, t) ->
  In (NReceipt tx (Ok receipt)) (network t) ->
  (events receipt = [] ->
   r = Raise (IndexError "list index out of range") /\ dumped t = [])
  /\ (forall v, r = Ok v -> events receipt <> []).
Proof.
  intros H Hin. unfold deploy_contract in H. run H.
  all: cbn [network net_op_of app In] in Hin; pick Hin.
  all: injection Hin as <- <-.
  all: match goal with
       | Hg : list_getitem (events _) 0 = _ |- _ =>
           split;
           [ intros Hev; rewrite Hev in Hg; cbv in Hg;
             try discriminate Hg; injection Hg as <-; split; reflexivity
           | intros v Hv Hev; try discriminate Hv; rewrite Hev in Hg;
             discriminate Hg ]
       end.
Qed.

(** C9.  The address is taken from [events[0]] with no test for an empty
    list.  In every run of [deploy_contract] that gets a receipt: if the
    receipt carries no event, [deploy_contract] raises [IndexError] and
    writes no summary, so that it returns only when the receipt carries an
    event; and in the script the [IndexError], an [Exception], is caught
    by the top-level handler, which prints it and the hint, and the script
    ends without running the smoke test. *)
Theorem empty_receipt_raises (W : World) (cfg : Config) :
  (forall h r t tx receipt,
      deploy_contract W cfg h = (r, t) ->
      In (NReceipt tx (Ok receipt)) (network t) ->
      (events receipt = [] ->
       r = Raise (IndexError "list index out of range") /\ dumped t = [])
      /\ (forall v, r = Ok v -> events receipt <> []))
  /\ (forall tx receipt,
        In (NReceipt tx (Ok receipt)) (network (snd (script W cfg))) ->
        events receipt = [] ->
        fst (script W cfg) = Exit 0
        /\ (exists t0,
               snd (script W cfg)
               = (t0 ++ handler_trace (IndexError "list index out of range"))%list
               /\ dumped t0 = [] /\ ~ smoke_test_ran t0)).
Proof.
  split; [intros h r t tx receipt; apply empty_receipt_in_deploy |].
  intros tx receipt. unfold script.
  destruct (main W cfg []) as [r t] eqn:Hmain. apply main_run_sound in Hmain.
  cbn [fst snd]. intros Hin Hev.
  destruct Hmain as [Hp | e td Hp Hd | v td Hp Hd Hv | a td rt tt Hp Hd Hv Ht].
  - contradiction Hin.
  - change (In (NReceipt tx (Ok receipt))
              (network (td ++ snd (handled (Raise e)))%list)) in Hin.
    rewrite network_app, handler_network, app_nil_r in Hin.
    destruct (empty_receipt_in_deploy _ _ _ _ _ _ _ Hd Hin) as [Hraise _].
    destruct (Hraise Hev) as [[= ->] Hdump].
    split; [reflexivity |].
    exists (EPrint main_banner :: td). repeat split; auto.
    apply starts_with_LF_not_ran. constructor; [reflexivity |].
    exact (deploy_contract_quiet W cfg _ _ _ Hd).
  - exfalso. change (In (NReceipt tx (Ok receipt)) (network td)) in Hin.
    now apply (empty_receipt_in_deploy _ _ _ _ _ _ _ Hd Hin) with (v := v).
  - exfalso.
    change (In (NReceipt tx (Ok receipt))
              (network (td ++ tt ++ snd (handled rt))%list)) in Hin.
    rewrite !network_app, handler_network, app_nil_r in Hin.
    apply in_app_or in Hin as [Hin | Hin].
    + now apply (empty_receipt_in_deploy _ _ _ _ _ _ _ Hd Hin)
        with (v := Some a).
    + exact (footprint_network _ (test_contract_footprint W cfg a _ _ _ Ht)
               _ Hin).
Qed.

Lemma empty_receipt_raises_witness :
  In (NReceipt 0xd2 (Ok {| events := [] |}))
     (network (snd (script no_event_world edited_config)))
  /\ fst (script no_event_world edited_config) = Exit 0
  /\ (exists t0,
         snd (script no_event_world edited_config)
         = (t0 ++ handler_trace (IndexError "list index out of range"))%list
         /\ dumped t0 = [] /\ ~ smoke_test_ran t0).
Proof.
  assert (Hin : In (NReceipt 0xd2 (Ok {| events := [] |}))
                  (network (snd (script no_event_world edited_config)))).
  { vm_compute. tauto. }
  split; [exact Hin |].
  exact (proj2 (empty_receipt_raises no_event_world edited_config)
           0xd2 {| events := [] |} Hin eq_refl).
Defined.

(** ** The order of the blockchain operations *)

(** The blockchain operations of a run of the script are those of
    [deploy_contract], followed, when the smoke test runs, by those of
    [test_contract]. *)
Lemma script_network W cfg :
  network (snd (script W cfg)) = []
  \/ (exists h r td,
         deploy_contract W cfg h = (r, td)
         /\ (forall a, r = Ok (Some a) -> truthy (Some a) = false)
         /\ network (snd (script W cfg)) = network td)
  \/ (exists h a td h' rt tt,
         deploy_contract W cfg h = (Ok (Some a), td)
         /\ test_contract W cfg a h' = (rt, tt)
         /\ network (snd (script W cfg)) = (network td ++ network tt)%list).
Proof.
  unfold script. destruct (main W cfg []) as [r t] eqn:Hmain.
  apply main_run_sound in Hmain. cbn [snd].
  destruct Hmain as [Hp | e td Hp Hd | v td Hp Hd Hv | a td rt tt Hp Hd Hv Ht].
  - left. reflexivity.
  - right. left. exists [EPrint main_banner], (Raise e), td.
    split; [exact Hd |]. split; [discriminate |].
    change (network (td ++ snd (handled (Raise e)))%list = network td).
    now rewrite network_app, handler_network, app_nil_r.
  - right. left. exists [EPrint main_banner], (Ok v), td.
    split; [exact Hd |]. split; [now intros a [= ->] | reflexivity].
  - right. right. exists [EPrint main_banner], a, td, (EPrint main_banner :: td), rt, tt.
    split; [exact Hd |]. split; [exact Ht |].
    change (network (td ++ tt ++ snd (handled rt))%list
            = (network td ++ network tt)%list).
    now rewrite !network_app, handler_network, app_nil_r.
Qed.

Lemma functions_getitem_Ok c name f :
  functions_getitem c name = Ok f ->
  f = {| cf_contract := c; cf_name := name |}.
Proof.
  unfold functions_getitem.
  destruct (existsb (String.eqb name) (functions c)); congruence.
Qed.

Ltac name_functions :=
  repeat match goal with
    | H : functions_getitem _ _ = Ok ?f |- _ =>
        apply functions_getitem_Ok in H; subst f
    end.

Ltac check_sequence :=
  unit_answers; name_functions; cbn [network net_op_of app cf_name];
  repeat split; cbn [succeeded]; auto;
  try (intros name args answer Hin Hname; cbn [In] in Hin; pick Hin;
       injection Hin as <- <- <-; first [discriminate Hname | reflexivity]).

(** C7.  In every run, the blockchain operations performed are an initial
    part of: declare, wait, deploy invoke, wait, fetch receipt, read total
    supply, mint, wait, read total supply, read metadata; each operation
    but the last performed had been answered, without an error, when the
    next began; each wait is for the transaction submitted just before it;
    and the metadata is read for token id 1. *)
Theorem operations_in_sequence (W : World) (cfg : Config) :
  let ops := network (snd (script W cfg)) in
  map kind_of ops = firstn (List.length ops) SEQUENCE
  /\ each_completed ops
  /\ waits_follow None ops
  /\ (forall name args answer,
         In (NCall name args answer) ops -> name = "get_token_metadata"%string ->
         args = [("token_id", 1)]).
Proof.
  cbv zeta.
  destruct (script_network W cfg)
    as [-> | [(h & r & td & Hd & _ & ->)
             | (h & a & td & h' & rt & tt & Hd & Ht & ->)]].
  - repeat split. intros name args answer [].
  - unfold deploy_contract in Hd. run Hd; check_sequence.
  - unfold deploy_contract in Hd. run Hd.
    unfold test_contract in Ht. run Ht; check_sequence.
Qed.

(** With a node where everything works, all ten operations happen, and
    three of them bear a fee. *)
Example fine_run_sequence :
  map kind_of (network (snd (script fine_world edited_config))) = SEQUENCE.
Proof. reflexivity. Qed.

Example fine_run_fees :
  map fee_of (network (snd (script fine_world edited_config)))
  = [ Some (10 ^ 16); None; Some (10 ^ 16); None; None;
      None; Some (10 ^ 16); None; None; None ].
Proof. reflexivity. Qed.

(** ** The summary file *)

(** What [deploy_contract] writes and opens. *)
Lemma deploy_contract_summary W cfg h r t :
  deploy_contract W cfg h = (r, t) ->
  (forall obj f,
      In (obj, f) (dumped t) ->
      exists declare_result deploy_result receipt ev,
        In (NDeclare max_fee (Ok declare_result)) (network t)
        /\ In (NInvoke [constructor_call declare_result] max_fee
                 (Ok deploy_result)) (network t)
        /\ In (NReceipt (transaction_hash deploy_result) (Ok receipt))
              (network t)
        /\ list_getitem (events receipt) 0 = Ok ev
        /\ obj = JObj
                   [ ("contract_address", JStr (hex (from_address ev)));
                     ("class_hash", JStr (hex (class_hash declare_result)));
                     ("transaction_hash",
                       JStr (hex (transaction_hash deploy_result)));
                     ("network", JStr "starknet-sepolia") ]
        /\ In ("deployment_info.json", "w", Ok f) (opened t))
  /\ (List.length (dumped t) <= 1)%nat
  /\ (forall mode rf,
         In ("deployment_info.json", mode, rf) (opened t) -> mode = "w").
Proof.
  intros H. unfold deploy_contract in H. run H.
  all: cbn [network dumped opened net_op_of app List.length].
  all: split;
    [ intros obj f Hd; cbn [In] in Hd; pick Hd; injection Hd as <- <-;
      eexists _, _, _, _; cbn [In]; repeat split; eauto 8
    | split;
      [ auto
      | intros mode rf Ho; cbn [In] in Ho; pick Ho; injection Ho as <- ;
        reflexivity ] ].
Qed.

(** C5.  In every run of the script, an object given to [json.dump] goes
    to the file opened as [deployment_info.json] for writing and has
    exactly the keys [contract_address], [class_hash], [transaction_hash]
    and [network], in this order: the first three hold, in hex, the address
    taken from the deploy receipt's first event, the class hash the declare
    step returned and the hash of the deploy transaction, the last is
    [starknet-sepolia].  At most one object is written, and
    [deployment_info.json] is never opened but for writing. *)
Theorem summary_file_contents (W : World) (cfg : Config) :
  let t := snd (script W cfg) in
  (forall obj f,
      In (obj, f) (dumped t) ->
      exists declare_result deploy_result receipt ev,
        In (NDeclare max_fee (Ok declare_result)) (network t)
        /\ In (NInvoke [constructor_call declare_result] max_fee
                 (Ok deploy_result)) (network t)
        /\ In (NReceipt (transaction_hash deploy_result) (Ok receipt))
              (network t)
        /\ list_getitem (events receipt) 0 = Ok ev
        /\ obj = JObj
                   [ ("contract_address", JStr (hex (from_address ev)));
                     ("class_hash", JStr (hex (class_hash declare_result)));
                     ("transaction_hash",
                       JStr (hex (transaction_hash deploy_result)));
                     ("network", JStr "starknet-sepolia") ]
        /\ In ("deployment_info.json", "w", Ok f) (opened t))
  /\ (List.length (dumped t) <= 1)%nat
  /\ (forall mode rf,
         In ("deployment_info.json", mode, rf) (opened t) -> mode = "w").
Proof.
  cbv zeta. unfold script.
  destruct (main W cfg []) as [r t] eqn:Hmain. apply main_run_sound in Hmain.
  cbn [snd].
  assert (Hcase :
            t = [EPrint main_banner; EPrint configure_line; EPrint wallet_line]
            \/ exists h rd td rest,
                deploy_contract W cfg h = (rd, td)
                /\ t = (EPrint main_banner :: td ++ rest)%list
                /\ dumped rest = []
                /\ (forall mode rf,
                       ~ In ("deployment_info.json", mode, rf) (opened rest))
                /\ True).
  { destruct Hmain
      as [Hp | e td Hp Hd | v td Hp Hd Hv | a td rt tt Hp Hd Hv Ht].
    - left. reflexivity.
    - right. exists [EPrint main_banner], (Raise e), td, (snd (handled (Raise e))).
      rewrite handler_dumped, handler_opened.
      repeat split; auto; intros ? ? [].
    - right. exists [EPrint main_banner], (Ok v), td, [].
      rewrite app_nil_r. repeat split; auto; intros ? ? [].
    - right.
      exists [EPrint main_banner], (Ok (Some a)), td, (tt ++ snd (handled rt))%list.
      pose proof (test_contract_footprint W cfg a _ _ _ Ht) as Hf.
      rewrite dumped_app, opened_app, handler_dumped, handler_opened,
        !app_nil_r, (footprint_dumped _ Hf).
      repeat split; auto.
      intros mode rf Hin. apply (footprint_opened _ Hf) in Hin as [E _].
      discriminate E. }
  destruct Hcase as [-> | (h & rd & td & rest & Hd & -> & Hdr & Hor & _)].
  - cbn. repeat split; auto; intros ? ? [].
  - destruct (deploy_contract_summary W cfg h rd td Hd) as (Hobj & Hlen & Hw).
    change (dumped (EPrint main_banner :: td ++ rest)%list)
      with (dumped (td ++ rest)%list).
    change (opened (EPrint main_banner :: td ++ rest)%list)
      with (opened (td ++ rest)%list).
    change (network (EPrint main_banner :: td ++ rest)%list)
      with (network (td ++ rest)%list).
    rewrite dumped_app, opened_app, network_app, Hdr, app_nil_r.
    split; [| split; [exact Hlen |]].
    + intros obj f Hin.
      destruct (Hobj obj f Hin) as (dr & ir & rc & ev & H1 & H2 & H3 & H4 & H5 & H6).
      exists dr, ir, rc, ev.
      repeat split; auto using in_or_app.
    + intros mode rf Hin. apply in_app_or in Hin as [Hin | Hin].
      * exact (Hw mode rf Hin).
      * destruct (Hor mode rf Hin).
Qed.

(** ** The top level *)

Lemma main_run_complete W cfg r t :
  main_run W cfg r t -> main W cfg [] = (r, t).
Proof.
  intros Hrun.
  unfold main, bind, print, try_except, deploy_then_test, bind, raise, ret.
  destruct Hrun
    as [Hp | e td Hp Hd | v td Hp Hd Hv | a td rt tt Hp Hd Hv Ht];
    rewrite Hp; cbn [app].
  - reflexivity.
  - rewrite Hd. cbn. unfold report_failure, bind, print.
    destruct (isinstance e "Exception"); cbn; now rewrite ?app_nil_r.
  - rewrite Hd, Hv. cbn. now rewrite !app_nil_r.
  - rewrite Hd, Hv. cbn [app]. rewrite Ht.
    destruct rt as [[] | e]; cbn.
    + now rewrite !app_nil_r.
    + unfold report_failure, bind, print.
      destruct (isinstance e "Exception"); cbn;
        now rewrite ?app_nil_r, <- ?app_assoc.
Qed.

Lemma script_of_run W cfg r t :
  main_run W cfg r t -> script W cfg = (terminate r, t).
Proof.
  intros H. unfold script. now rewrite (main_run_complete _ _ _ _ H).
Qed.

(** C6, as the code has it.  When the placeholders are replaced, an
    exception that leaves [deploy_contract], or [test_contract] when the
    smoke test runs, and is an instance of [Exception] is caught by the
    top-level handler: the script prints the error text and the hint about
    gas, prints nothing after them and ends with exit status 0.  An
    exception that is no instance of [Exception] is not caught: no line is
    added and the exception goes on to the interpreter. *)
Theorem top_level_handler (W : World) (cfg : Config) (e : exn) :
  placeholders_left cfg = false ->
  (forall td,
      deploy_contract W cfg [EPrint main_banner] = (Raise e, td) ->
      reported e (EPrint main_banner :: td) (script W cfg))
  /\ (forall a td tt,
         deploy_contract W cfg [EPrint main_banner] = (Ok (Some a), td) ->
         truthy (Some a) = true ->
         test_contract W cfg a (EPrint main_banner :: td) = (Raise e, tt) ->
         reported e (EPrint main_banner :: td ++ tt)%list (script W cfg)).
Proof.
  intros Hp. split.
  - intros td Hd.
    rewrite (script_of_run _ _ _ _ (run_deploy_raised W cfg e td Hp Hd)).
    unfold reported, handled. split; intros Hi; rewrite Hi; cbn.
    + reflexivity.
    + now rewrite app_nil_r.
  - intros a td tt Hd Hv Ht.
    rewrite (script_of_run _ _ _ _
               (run_tested W cfg a td (Raise e) tt Hp Hd Hv Ht)).
    unfold reported, handled. split; intros Hi; rewrite Hi; cbn.
    + now rewrite <- app_assoc.
    + now rewrite app_nil_r.
Qed.

Lemma top_level_handler_witness :
  placeholders_left edited_config = false
  /\ isinstance
       (ClientError "Client failed with code 54: Account balance is too small")
       "Exception" = true
  /\ fst (script refusing_world edited_config) = Exit 0
  /\ printed (snd (script refusing_world edited_config))
     = [ main_banner; start_line; "📱 Using account: 0x1234";
         "📄 Contract loaded successfully"; "📤 Declaring contract...";
         "❌ Deployment failed: Client failed with code 54: Account balance is too small";
         gas_line ].
Proof.
  split; [reflexivity |]. split; [reflexivity |].
  destruct (deploy_contract refusing_world edited_config [EPrint main_banner])
    as [rd td] eqn:Hd.
  pose proof Hd as Hd'. vm_compute in Hd'. injection Hd' as <- <-.
  rewrite (proj1 (proj1 (top_level_handler refusing_world edited_config _
                           eq_refl) _ Hd) eq_refl).
  split; reflexivity.
Defined.

(** A [KeyboardInterrupt] while the script waits for the declare
    transaction is raised during deployment and is not caught by the
    top-level handler: nothing is printed for it and the script does not
    end on its own terms. *)
Lemma keyboard_interrupt_not_caught :
  placeholders_left edited_config = false
  /\ fst (deploy_contract interrupted_world edited_config [EPrint main_banner])
     = Raise KeyboardInterrupt
  /\ fst (script interrupted_world edited_config) = Uncaught KeyboardInterrupt
  /\ ~ In gas_line (printed (snd (script interrupted_world edited_config))).
Proof.
  repeat split. vm_compute. intuition discriminate.
Qed.

(** ** The gate before the smoke test *)

Lemma test_contract_starts W cfg a h r t :
  test_contract W cfg a h = (r, t) -> exists t', t = EPrint test_line :: t'.
Proof.
  unfold test_contract. intros H.
  apply bind_inv in H as [(u & t1 & t2 & h' & H1 & _ & ->) | (e & H1 & _)];
    apply print_inv in H1 as [H1 ->];
    [eexists; reflexivity | discriminate H1].
Qed.

Lemma smoke_test_ran_app t1 t2 :
  smoke_test_ran (t1 ++ t2)%list <-> smoke_test_ran t1 \/ smoke_test_ran t2.
Proof. unfold smoke_test_ran. rewrite printed_app, in_app_iff. tauto. Qed.

Lemma banner_and_deploy_quiet W cfg h r td :
  deploy_contract W cfg h = (r, td) ->
  ~ smoke_test_ran (EPrint main_banner :: td).
Proof.
  intros Hd. apply starts_with_LF_not_ran. constructor; [reflexivity |].
  exact (deploy_contract_quiet W cfg _ _ _ Hd).
Qed.

(** C10, as the code has it.  When the placeholders are replaced, the
    smoke test is run if and only if [deploy_contract] returns a truthy
    value.  When it returns [None] or the address 0, both falsy, the script
    ends with exit status 0 having done nothing after [deploy_contract].
    When the artifact file is missing the smoke test is skipped:
    [deploy_contract] returns [None] by its early return, unless its
    set-up raised before the load. *)
Theorem smoke_test_gate
  (W : World) (cfg : Config) (rd : result (option Z)) (td : trace) :
  placeholders_left cfg = false ->
  deploy_contract W cfg [EPrint main_banner] = (rd, td) ->
  (smoke_test_ran (snd (script W cfg)) <-> exists v, rd = Ok v /\ truthy v = true)
  /\ (forall v, rd = Ok v -> truthy v = false ->
                script W cfg = (Exit 0, EPrint main_banner :: td))
  /\ truthy None = false /\ truthy (Some 0) = false
  /\ (artifact_missing W ->
      ~ smoke_test_ran (snd (script W cfg))
      /\ (returned_early rd td \/ setup_failed rd td)).
Proof.
  intros Hp Hd.
  assert (Hquiet := banner_and_deploy_quiet W cfg _ _ _ Hd).
  assert (Hgate : smoke_test_ran (snd (script W cfg))
                  <-> exists v, rd = Ok v /\ truthy v = true).
  { destruct rd as [v | e].
    - destruct (truthy v) eqn:Hv.
      + destruct v as [a |]; [| discriminate Hv].
        destruct (test_contract W cfg a (EPrint main_banner :: td))
          as [rt tt] eqn:Ht.
        rewrite (script_of_run _ _ _ _ (run_tested W cfg a td rt tt Hp Hd Hv Ht)).
        destruct (test_contract_starts _ _ _ _ _ _ Ht) as [tt' ->].
        cbn [snd]. split; [eauto |]. intros _.
        change (smoke_test_ran
                  ((EPrint main_banner :: td)
                     ++ (EPrint test_line :: tt') ++ snd (handled rt))%list).
        rewrite smoke_test_ran_app. right.
        unfold smoke_test_ran. simpl. auto.
      + rewrite (script_of_run _ _ _ _ (run_test_skipped W cfg v td Hp Hd Hv)).
        cbn [snd]. split; [tauto |]. intros (v' & [= <-] & Hv'). congruence.
    - rewrite (script_of_run _ _ _ _ (run_deploy_raised W cfg e td Hp Hd)).
      cbn [snd]. split; [| intros (v & E & _); discriminate E].
      change (smoke_test_ran
                ((EPrint main_banner :: td) ++ snd (handled (Raise e)))%list
              -> exists v, Raise e = Ok v /\ truthy v = true).
      rewrite smoke_test_ran_app. intros [H | H]; [tauto |].
      exfalso. exact (starts_with_LF_not_ran _ (handler_quiet _) H). }
  split; [exact Hgate |]. split; [| split; [reflexivity |]; split; [reflexivity |]].
  - intros v -> Hv.
    now rewrite (script_of_run _ _ _ _ (run_test_skipped W cfg v td Hp Hd Hv)).
  - intros Hm.
    pose proof (missing_artifact_outcome W cfg _ _ _ Hm Hd) as Hearly.
    split; [| exact Hearly]. rewrite Hgate.
    intros (v & -> & Hv).
    destruct Hearly as [[[= ->] _] | (e & E & _)]; discriminate.
Qed.

Lemma smoke_test_gate_witness :
  placeholders_left edited_config = false
  /\ deploy_contract zero_address_world edited_config [EPrint main_banner]
     = (Ok (Some 0),
        snd (deploy_contract zero_address_world edited_config
               [EPrint main_banner]))
  /\ ~ smoke_test_ran (snd (script zero_address_world edited_config))
  /\ script zero_address_world edited_config
     = (Exit 0,
        EPrint main_banner
          :: snd (deploy_contract zero_address_world edited_config
                    [EPrint main_banner])).
Proof.
  assert (Hd : deploy_contract zero_address_world edited_config
                 [EPrint main_banner]
               = (Ok (Some 0),
                  snd (deploy_contract zero_address_world edited_config
                         [EPrint main_banner]))).
  { reflexivity. }
  destruct (smoke_test_gate zero_address_world edited_config _ _ eq_refl Hd)
    as (Hgate & Hskip & _).
  split; [reflexivity |]. split; [exact Hd |]. split.
  - rewrite Hgate. intros (v & [= <-] & Hv). discriminate Hv.
  - exact (Hskip _ eq_refl eq_refl).
Defined.

(** An account address that is no number makes the SDK raise before the
    load: the artifact file is missing, and [deploy_contract] does not
    return [None]; it does not return. *)
Lemma missing_artifact_not_always_None :
  artifact_missing strict_world
  /\ placeholders_left mistyped_address_config = false
  /\ fst (deploy_contract strict_world mistyped_address_config
            [EPrint main_banner])
     = Raise (ValueError
                "invalid literal for int() with base 16: 'my account'")
  /\ fst (deploy_contract strict_world mistyped_address_config
            [EPrint main_banner])
     <> Ok None.
Proof.
  split; [intros h; eexists; split; reflexivity |].
  split; [reflexivity |]. split; [reflexivity |]. discriminate.
Qed.

(** ** The files *)

Lemma bracketed_app (cur : option (File * bool)) (t1 t2 : trace) :
  bracketed cur t1 -> bracketed None t2 -> bracketed cur (t1 ++ t2)%list.
Proof.
  revert cur. induction t1 as [| ev t1 IH]; intros cur H1 H2; simpl in *.
  - now subst cur.
  - destruct (file_op_of ev) as [p m [f | e] | f r | o f r | f r |];
      destruct H1 as [Hc H1]; split; auto.
Qed.

Lemma deploy_contract_bracketed W cfg h r t :
  deploy_contract W cfg h = (r, t) -> bracketed None t.
Proof.
  intros H. unfold deploy_contract in H. run H.
  all: cbn [bracketed file_op_of app]; repeat split; reflexivity.
Qed.

Lemma test_contract_bracketed W cfg a h r t :
  test_contract W cfg a h = (r, t) -> bracketed None t.
Proof.
  intros H. unfold test_contract in H. run H.
  all: cbn [bracketed file_op_of app]; repeat split; reflexivity.
Qed.

Lemma handler_bracketed r : bracketed None (snd (handled r)).
Proof.
  destruct r as [u | e]; simpl; [reflexivity |].
  destruct (isinstance e "Exception"); simpl; auto.
Qed.

(** X1.  In every run of the script the [with] statements keep their
    discipline: a file is opened only when none is open, is then read or
    written once and closed, also when reading or writing raised, before
    anything else happens, and no file is open when the script ends. *)
Theorem files_are_closed (W : World) (cfg : Config) :
  bracketed None (snd (script W cfg)).
Proof.
  unfold script. destruct (main W cfg []) as [r t] eqn:Hmain.
  apply main_run_sound in Hmain. cbn [snd].
  destruct Hmain as [Hp | e td Hp Hd | v td Hp Hd Hv | a td rt tt Hp Hd Hv Ht].
  - simpl. auto.
  - change (bracketed None ([EPrint main_banner] ++ td ++ snd (handled (Raise e)))%list).
    repeat apply bracketed_app; simpl; auto.
    + eapply deploy_contract_bracketed; eassumption.
    + apply (handler_bracketed (Raise e)).
  - change (bracketed None ([EPrint main_banner] ++ td)%list).
    apply bracketed_app; simpl; auto.
    eapply deploy_contract_bracketed; eassumption.
  - change (bracketed None ([EPrint main_banner] ++ td ++ tt ++ snd (handled rt))%list).
    repeat apply bracketed_app; simpl; auto.
    + eapply deploy_contract_bracketed; eassumption.
    + eapply test_contract_bracketed; eassumption.
    + apply handler_bracketed.
Qed.

(** ** The early return *)

(** X2.  [deploy_contract] takes its early return, with the lines about
    the missing file, exactly when the last exception raised while the
    artifact was opened, read and closed is a [FileNotFoundError]; no
    blockchain operation is then performed.  Any other exception raised
    there leaves [deploy_contract], and the lines are not printed. *)
Theorem early_return_iff_file_not_found
  (W : World) (cfg : Config) (h : trace) (r : result (option Z)) (t : trace) :
  deploy_contract W cfg h = (r, t) ->
  (r = Ok None <-> In not_found_line (printed t))
  /\ (r = Ok None <->
      network t = []
      /\ exists e, hd_error (rev (file_failures t)) = Some e
                   /\ isinstance e "FileNotFoundError" = true)
  /\ (forall e,
         network t = [] ->
         hd_error (rev (file_failures t)) = Some e ->
         isinstance e "FileNotFoundError" = false ->
         r = Raise e).
Proof.
  intros H. unfold deploy_contract in H. run H.
  all: repeat match goal with x : result _ |- _ => destruct x end.
  all: cbn [network net_op_of printed file_failures file_op_of app rev
              hd_error].
  all: split;
    [ split;
      [ intros E; try discriminate E; cbn [In]; auto
      | intros E; cbn [In] in E; pick E; reflexivity ]
    | split;
      [ split;
        [ intros E;
          first
            [ discriminate E
            | split; [reflexivity | eexists; split; [reflexivity | assumption]] ]
        | intros [Hnet (e' & Hlast & Hfnf)]; try discriminate Hnet;
          try discriminate Hlast; injection Hlast as <-; congruence ]
      | intros e' Hnet Hlast Hfnf; try discriminate Hnet;
        try discriminate Hlast; injection Hlast as <-; congruence ] ].
Qed.

Lemma early_return_iff_file_not_found_witness :
  fst (deploy_contract malformed_artifact_world edited_config [])
  = Raise (JSONDecodeError "Expecting value: line 1 column 1 (char 0)")
  /\ ~ In not_found_line
        (printed (snd (deploy_contract malformed_artifact_world
                         edited_config []))).
Proof.
  split; [reflexivity |].
  rewrite <- (proj1 (early_return_iff_file_not_found
                       malformed_artifact_world edited_config []
                       _ _ (surjective_pairing _))).
  discriminate.
Defined.

(** ** After the receipt *)

(** X3.  [deploy_contract] returns an address only in a run in which no
    operation raised, after it has written the summary and printed that it
    is saved.  Once the receipt has come with an event, the success lines
    are printed and only opening, writing or closing the summary file can
    still fail: the exception then leaves [deploy_contract], which returns
    no address although the contract is deployed. *)
Theorem address_returned_only_when_saved
  (W : World) (cfg : Config) (h : trace) (r : result (option Z)) (t : trace) :
  deploy_contract W cfg h = (r, t) ->
  (forall a, r = Ok (Some a) ->
             failures t = [] /\ In saved_line (printed t)
             /\ List.length (dumped t) = 1%nat)
  /\ (forall tx receipt ev,
         In (NReceipt tx (Ok receipt)) (network t) ->
         list_getitem (events receipt) 0 = Ok ev ->
         In deployed_line (printed t)
         /\ (r = Ok (Some (from_address ev))
             \/ exists e, r = Raise e
                          /\ hd_error (rev (file_failures t)) = Some e
                          /\ ~ In saved_line (printed t))).
Proof.
  intros H. unfold deploy_contract in H. run H.
  all: repeat match goal with x : result _ |- _ => destruct x end.
  all: cbn [network net_op_of printed failures file_failures file_op_of
              dumped app rev hd_error List.length].
  all: split;
    [ intros addr Haddr; first [discriminate Haddr | cbn [In]; auto 20]
    | intros tx receipt ev0 Hin Hev; cbn [In] in Hin; pick Hin ].
  all: injection Hin as <- <-.
  all: match goal with
       | Hg : list_getitem (events ?rc) 0 = _,
         Hev : list_getitem (events ?rc) 0 = Ok _ |- _ =>
           rewrite Hev in Hg; first [discriminate Hg | injection Hg as <-]
       end.
  all: split; [cbn [In]; auto 20 |].
  all: first
         [ left; reflexivity
         | right; eexists; split; [reflexivity |]; split; [reflexivity |];
           intros Esaved; cbn [In] in Esaved; pick Esaved ].
Qed.

Lemma address_returned_only_when_saved_witness :
  In (NReceipt 0xd2 (Ok fine_receipt))
     (network (snd (deploy_contract read_only_world edited_config [])))
  /\ In deployed_line
        (printed (snd (deploy_contract read_only_world edited_config [])))
  /\ fst (deploy_contract read_only_world edited_config [])
     = Raise (PermissionError
                "[Errno 13] Permission denied: 'deployment_info.json'").
Proof.
  assert (Hin : In (NReceipt 0xd2 (Ok fine_receipt))
                  (network (snd (deploy_contract read_only_world
                                   edited_config [])))).
  { vm_compute. tauto. }
  split; [exact Hin |].
  destruct (proj2 (address_returned_only_when_saved
                     read_only_world edited_config [] _ _
                     (surjective_pairing _))
              0xd2 fine_receipt _ Hin eq_refl) as [Hd _].
  split; [exact Hd | reflexivity].
Defined.

(** ** Where the declared program and the signer come from *)

Lemma sdk_app (t1 t2 : trace) : sdk (t1 ++ t2)%list = (sdk t1 ++ sdk t2)%list.
Proof.
  induction t1 as [| ev t1 IH]; simpl; [reflexivity |].
  destruct (sdk_op_of ev); simpl; now rewrite IH.
Qed.

Lemma loaded_app (t1 t2 : trace) :
  loaded (t1 ++ t2)%list = (loaded t1 ++ loaded t2)%list.
Proof.
  induction t1 as [| ev t1 IH]; simpl; [reflexivity |].
  destruct (file_op_of ev); simpl; now rewrite IH.
Qed.

(** X4.  What [deploy_contract] declares is what [json.load] returned for
    the artifact file, unchanged, and the declare and the deploy invoke
    are signed by the account built from the configuration: the address
    [ACCOUNT_ADDRESS], the key pair of [PRIVATE_KEY], the client of the
    RPC URL of the source, on Sepolia. *)
Theorem declare_carries_artifact
  (W : World) (cfg : Config) (h : trace) (r : result (option Z)) (t : trace) :
  deploy_contract W cfg h = (r, t) ->
  (forall signer compiled_contract,
      In (SDeclare signer compiled_contract) (sdk t) ->
      configured cfg t signer
      /\ exists f,
          In (CONTRACT_COMPILED_PATH, "r"%string, Ok f) (opened t)
          /\ In (f, Ok compiled_contract) (loaded t))
  /\ (forall signer, In (SInvoke signer) (sdk t) -> configured cfg t signer).
Proof.
  intros H. unfold deploy_contract in H. run H.
  all: repeat match goal with x : result _ |- _ => destruct x end.
  all: unfold configured;
    cbn [sdk sdk_op_of opened loaded file_op_of app].
  all: split;
    [ intros signer cc0 Hin; cbn [In] in Hin; pick Hin
    | intros signer Hin; cbn [In] in Hin; pick Hin ].
  all: first
         [ injection Hin as <- <-;
           split; [eexists _, _; cbn [In]; auto 10
                  | eexists; cbn [In]; auto 10]
         | injection Hin as <-; eexists _, _; cbn [In]; auto 10 ].
Qed.

Lemma declare_carries_artifact_witness :
  In (SDeclare {| account_address := 0x1234;
                  account_client := {| node_url := TESTNET_RPC_URL |} |}
        (JObj [("abi", JArr []); ("program", JObj [])]))
     (sdk (snd (deploy_contract fine_world edited_config [])))
  /\ configured edited_config
       (snd (deploy_contract fine_world edited_config []))
       {| account_address := 0x1234;
          account_client := {| node_url := TESTNET_RPC_URL |} |}.
Proof.
  assert (Hin : In (SDeclare
                      {| account_address := 0x1234;
                         account_client := {| node_url := TESTNET_RPC_URL |} |}
                      (JObj [("abi", JArr []); ("program", JObj [])]))
                  (sdk (snd (deploy_contract fine_world edited_config [])))).
  { vm_compute. tauto. }
  split; [exact Hin |].
  exact (proj1 (proj1 (declare_carries_artifact fine_world edited_config []
                         _ _ (surjective_pairing _)) _ _ Hin)).
Defined.

(** ** The contract of the smoke test *)

Lemma functions_getitem_declared c name f :
  functions_getitem c name = Ok f ->
  f = {| cf_contract := c; cf_name := name |}
  /\ existsb (String.eqb name) (functions c) = true.
Proof.
  unfold functions_getitem.
  destruct (existsb (String.eqb name) (functions c)); [| discriminate].
  intros [= <-]. auto.
Qed.

Ltac declared_functions :=
  repeat match goal with
    | H : functions_getitem _ _ = Ok ?f |- _ =>
        apply functions_getitem_declared in H; destruct H as [-> H]
    end.

Lemma json_getitem_raises d key e :
  json_getitem d key = Raise e -> isinstance e "Exception" = true.
Proof.
  destruct d as [| b | n | s | l | items]; simpl; try (intros [= <-]; reflexivity).
  destruct (assoc key items); [discriminate | intros [= <-]; reflexivity].
Qed.

(** In every run of [test_contract], the contract handle is built for
    the address the procedure was given, with what the artifact holds under
    [abi] and the account of the configuration as provider. *)
Lemma test_contract_builds W cfg a h r t :
  test_contract W cfg a h = (r, t) ->
  forall addr abi provider answer,
    In (SContract addr abi provider answer) (sdk t) ->
    addr = a
    /\ configured cfg t provider
    /\ exists f data,
        In (CONTRACT_COMPILED_PATH, "r"%string, Ok f) (opened t)
        /\ In (f, Ok data) (loaded t)
        /\ json_getitem data "abi" = Ok abi.
Proof.
  intros H. unfold test_contract in H. run H.
  all: repeat match goal with x : result _ |- _ => destruct x end.
  all: unfold configured;
    cbn [sdk sdk_op_of opened loaded file_op_of app].
  all: intros addr abi0 provider answer Hin; cbn [In] in Hin; pick Hin.
  all: injection Hin as <- <- <- <-.
  all: split; [reflexivity |].
  all: split; [eexists _, _; cbn [In]; auto 10 |].
  all: eexists _, _; cbn [In]; eauto 10.
Qed.

Lemma deploy_contract_returns_first_event W cfg h a t :
  deploy_contract W cfg h = (Ok (Some a), t) ->
  exists tx receipt ev,
    In (NReceipt tx (Ok receipt)) (network t)
    /\ list_getitem (events receipt) 0 = Ok ev
    /\ a = from_address ev.
Proof.
  intros H. unfold deploy_contract in H. run H.
  eexists _, _, _. cbn [network net_op_of app In]. eauto 10.
Qed.

Lemma deploy_contract_builds_no_contract W cfg :
  emits (fun ev => match sdk_op_of ev with
                   | Some (SContract _ _ _ _) | Some (SFunction _) => False
                   | _ => True
                   end)
    (deploy_contract W cfg).
Proof. unfold deploy_contract. emits_walk; simpl; auto. Qed.

Lemma no_contract_in t :
  Forall (fun ev => match sdk_op_of ev with
                    | Some (SContract _ _ _ _) | Some (SFunction _) => False
                    | _ => True
                    end) t ->
  forall addr abi provider answer,
    ~ In (SContract addr abi provider answer) (sdk t).
Proof.
  induction 1 as [| ev t Hev _ IH]; simpl; [tauto |].
  intros addr abi p answer.
  destruct (sdk_op_of ev) as [[] |]; simpl; try contradiction;
    try (intros [E | Hin]; [discriminate E | exact (IH _ _ _ _ Hin)]).
  apply IH.
Qed.

Lemma handler_sdk r : sdk (snd (handled r)) = [].
Proof.
  destruct r as [u | e]; simpl; [reflexivity |].
  now destruct (isinstance e "Exception").
Qed.

Lemma configured_app cfg t1 t2 a :
  configured cfg t1 a \/ configured cfg t2 a ->
  configured cfg (t1 ++ t2)%list a.
Proof.
  unfold configured. rewrite sdk_app.
  intros [(c & kp & H1 & H2 & H3) | (c & kp & H1 & H2 & H3)];
    exists c, kp; auto using in_or_app.
Qed.

(** X5.  In every run of the script, the contract handle of the smoke
    test is built for the address that [deploy_contract] took from the
    first event of the deploy receipt, never for address 0, with what the
    artifact holds under [abi] and with the account of the configuration
    as provider. *)
Theorem smoke_test_contract (W : World) (cfg : Config) :
  forall addr abi provider answer,
    In (SContract addr abi provider answer) (sdk (snd (script W cfg))) ->
    addr <> 0
    /\ (exists tx receipt ev,
           In (NReceipt tx (Ok receipt)) (network (snd (script W cfg)))
           /\ list_getitem (events receipt) 0 = Ok ev
           /\ addr = from_address ev)
    /\ configured cfg (snd (script W cfg)) provider
    /\ exists f data,
        In (f, Ok data) (loaded (snd (script W cfg)))
        /\ json_getitem data "abi" = Ok abi.
Proof.
  intros addr abi provider answer. unfold script.
  destruct (main W cfg []) as [r t] eqn:Hmain. apply main_run_sound in Hmain.
  cbn [snd].
  destruct Hmain as [Hp | e td Hp Hd | v td Hp Hd Hv | a td rt tt Hp Hd Hv Ht].
  - intros [].
  - change (EPrint main_banner :: td ++ snd (handled (Raise e)))%list
      with ([EPrint main_banner] ++ td ++ snd (handled (Raise e)))%list.
    rewrite !sdk_app, handler_sdk, app_nil_r. simpl.
    intros Hin. exfalso.
    exact (no_contract_in _ (deploy_contract_builds_no_contract W cfg _ _ _ Hd)
             _ _ _ _ Hin).
  - change (sdk (EPrint main_banner :: td)) with (sdk td).
    intros Hin. exfalso.
    exact (no_contract_in _ (deploy_contract_builds_no_contract W cfg _ _ _ Hd)
             _ _ _ _ Hin).
  - change (EPrint main_banner :: td ++ tt ++ snd (handled rt))%list
      with ([EPrint main_banner] ++ td ++ tt ++ snd (handled rt))%list.
    rewrite !sdk_app, !network_app, !loaded_app, handler_sdk, app_nil_r.
    simpl. intros Hin. apply in_app_or in Hin as [Hin | Hin].
    { exfalso.
      exact (no_contract_in _
               (deploy_contract_builds_no_contract W cfg _ _ _ Hd)
               _ _ _ _ Hin). }
    destruct (test_contract_builds W cfg a _ _ _ Ht _ _ _ _ Hin)
      as (-> & Hc & f & data & _ & Hl & Habi).
    destruct (deploy_contract_returns_first_event W cfg _ _ _ Hd)
      as (tx & receipt & ev & Hr & Hev & Ha).
    split.
    { intros ->. discriminate Hv. }
    split.
    { exists tx, receipt, ev. auto using in_or_app. }
    split.
    { apply (configured_app cfg [EPrint main_banner]). right.
      apply configured_app. right. apply configured_app. now left. }
    exists f, data. split; [| exact Habi].
    apply in_or_app. right. apply in_or_app. now left.
Qed.

Lemma smoke_test_contract_witness :
  In (SContract 0xadd7 (JArr [])
        {| account_address := 0x1234;
           account_client := {| node_url := TESTNET_RPC_URL |} |}
        (Ok {| contract_address := 0xadd7;
               functions := ["get_total_supply"; "mint_medical_nft";
                             "get_token_metadata"] |}))
     (sdk (snd (script fine_world edited_config)))
  /\ 0xadd7 <> 0
  /\ exists tx receipt ev,
      In (NReceipt tx (Ok receipt))
         (network (snd (script fine_world edited_config)))
      /\ list_getitem (events receipt) 0 = Ok ev
      /\ 0xadd7 = from_address ev.
Proof.
  assert (Hin : In (SContract 0xadd7 (JArr [])
                      {| account_address := 0x1234;
                         account_client := {| node_url := TESTNET_RPC_URL |} |}
                      (Ok {| contract_address := 0xadd7;
                             functions := ["get_total_supply";
                                           "mint_medical_nft";
                                           "get_token_metadata"] |}))
                  (sdk (snd (script fine_world edited_config)))).
  { vm_compute. tauto. }
  split; [exact Hin |].
  destruct (smoke_test_contract fine_world edited_config _ _ _ _ Hin)
    as (Hz & Hr & _).
  split; [exact Hz | exact Hr].
Defined.

(** ** What the smoke test needs *)

(** X6.  When the artifact holds no [abi], [test_contract] raises before
    it builds a contract handle or performs any blockchain operation; if
    no file operation raised, what it raises is the [KeyError] or
    [TypeError] of the subscript, an [Exception]. *)
Theorem smoke_test_needs_abi
  (W : World) (cfg : Config) (a : Z) (h : trace) (r : result unit) (t : trace)
  (f : File) (data : json) :
  test_contract W cfg a h = (r, t) ->
  In (f, Ok data) (loaded t) ->
  (forall abi, json_getitem data "abi" <> Ok abi) ->
  network t = []
  /\ (forall addr abi provider answer,
         ~ In (SContract addr abi provider answer) (sdk t))
  /\ (exists e, r = Raise e)
  /\ (failures t = [] ->
      exists e, json_getitem data "abi" = Raise e /\ r = Raise e
                /\ isinstance e "Exception" = true).
Proof.
  intros H Hin Habi. unfold test_contract in H. run H.
  all: repeat match goal with x : result _ |- _ => destruct x end.
  all: cbn [loaded file_op_of app In] in Hin; pick Hin.
  all: injection Hin as <- <-.
  all: try match goal with
         | Hg : json_getitem _ "abi" = Ok _ |- _ =>
             exfalso; exact (Habi _ Hg)
         end.
  all: cbn [network net_op_of sdk sdk_op_of failures app In].
  all: split; [reflexivity |].
  all: split; [intros addr abi0 provider answer Hbuilt; pick Hbuilt |].
  all: split; [eexists; reflexivity |].
  all: intros Hf; first [discriminate Hf | idtac].
  all: eexists; split; [eassumption |]; split; [reflexivity |].
  all: eapply json_getitem_raises; eassumption.
Qed.

Lemma smoke_test_needs_abi_witness :
  let run := test_contract no_abi_world edited_config 0xadd7 [] in
  network (snd run) = []
  /\ fst run = Raise (KeyError "'abi'").
Proof.
  cbv zeta.
  destruct (smoke_test_needs_abi no_abi_world edited_config 0xadd7 []
              (fst (test_contract no_abi_world edited_config 0xadd7 []))
              (snd (test_contract no_abi_world edited_config 0xadd7 []))
              {| file_name := CONTRACT_COMPILED_PATH; file_mode := "r";
                 fileno := 3 |}
              (JObj [("program", JObj [])])
              (surjective_pairing _))
    as (Hn & _).
  - vm_compute. tauto.
  - intros abi. discriminate.
  - split; [exact Hn | reflexivity].
Defined.

(** X7.  [test_contract] calls or invokes only functions that the contract
    handle built for its address declares.  When that handle has no
    [mint_medical_nft], no mint transaction is submitted and
    [test_contract] raises. *)
Theorem smoke_test_calls_declared_functions
  (W : World) (cfg : Config) (a : Z) (h : trace) (r : result unit) (t : trace) :
  test_contract W cfg a h = (r, t) ->
  (forall fn,
      In (SFunction fn) (sdk t) ->
      existsb (String.eqb (cf_name fn)) (functions (cf_contract fn)) = true
      /\ exists abi provider,
          In (SContract a abi provider (Ok (cf_contract fn))) (sdk t))
  /\ (forall addr abi provider c,
         In (SContract addr abi provider (Ok c)) (sdk t) ->
         existsb (String.eqb "mint_medical_nft") (functions c) = false ->
         filter is_function_invoke (network t) = []
         /\ exists e, r = Raise e).
Proof.
  intros H. unfold test_contract in H. run H.
  all: repeat match goal with x : result _ |- _ => destruct x end.
  all: declared_functions.
  all: cbn [network net_op_of sdk sdk_op_of app filter is_function_invoke].
  all: split;
    [ intros fn Hin; cbn [In] in Hin; pick Hin
    | intros addr abi0 provider c Hin Hmint; cbn [In] in Hin; pick Hin ].
  all: first
         [ injection Hin as <- <- <- <-;
           first [ congruence
                 | split; [reflexivity | eexists; reflexivity] ]
         | injection Hin as <-; cbn [cf_name cf_contract];
           split; [assumption | eexists _, _; cbn [In]; auto 10] ].
Qed.

Lemma smoke_test_calls_declared_functions_witness :
  let run := test_contract no_mint_world edited_config 0xadd7 [] in
  filter is_function_invoke (network (snd run)) = []
  /\ fst run = Raise (KeyError "'mint_medical_nft'").
Proof.
  cbv zeta.
  destruct (proj2 (smoke_test_calls_declared_functions
                     no_mint_world edited_config 0xadd7 []
                     (fst (test_contract no_mint_world edited_config 0xadd7 []))
                     (snd (test_contract no_mint_world edited_config 0xadd7 []))
                     (surjective_pairing _))
              0xadd7 (JArr [])
              {| account_address := 0x1234;
                 account_client := {| node_url := TESTNET_RPC_URL |} |}
              {| contract_address := 0xadd7;
                 functions := ["get_total_supply"; "get_token_metadata"] |})
    as (Hn & _).
  - vm_compute. tauto.
  - reflexivity.
  - split; [exact Hn | reflexivity].
Defined.

(** ** The exit status *)

Lemma failures_app (t1 t2 : trace) :
  failures (t1 ++ t2)%list = (failures t1 ++ failures t2)%list.
Proof.
  induction t1 as [| [line | X o [x | e]] t1 IH]; simpl; auto.
  now rewrite IH.
Qed.

Lemma handler_failures r : failures (snd (handled r)) = [].
Proof.
  destruct r as [u | e]; simpl; [reflexivity |].
  now destruct (isinstance e "Exception").
Qed.

Lemma list_getitem_raises {A : Type} (l : list A) i e :
  list_getitem l i = Raise e -> isinstance e "Exception" = true.
Proof.
  unfold list_getitem. destruct (nth_error l i); [discriminate |].
  intros [= <-]. reflexivity.
Qed.

Lemma functions_getitem_raises c name e :
  functions_getitem c name = Raise e -> isinstance e "Exception" = true.
Proof.
  unfold functions_getitem.
  destruct (existsb (String.eqb name) (functions c)); [discriminate |].
  intros [= <-]. reflexivity.
Qed.

Lemma getattr_raises r name e :
  getattr r name = Raise e -> isinstance e "Exception" = true.
Proof.
  unfold getattr. destruct (assoc name (cr_attrs r)); [discriminate |].
  intros [= <-]. reflexivity.
Qed.

(** An exception that leaves a procedure was raised by the world, or is
    the [Exception] of a failed subscript or attribute. *)
Ltac origin :=
  first
    [ left; cbn [failures app In]; auto 30; fail
    | right; eauto using list_getitem_raises, json_getitem_raises,
        functions_getitem_raises, getattr_raises ].

Lemma deploy_contract_raise_origin W cfg h e t :
  deploy_contract W cfg h = (Raise e, t) ->
  In e (failures t) \/ isinstance e "Exception" = true.
Proof.
  intros H. unfold deploy_contract in H. run H.
  all: repeat match goal with x : result _ |- _ => destruct x end.
  all: origin.
Qed.

Lemma test_contract_raise_origin W cfg a h e t :
  test_contract W cfg a h = (Raise e, t) ->
  In e (failures t) \/ isinstance e "Exception" = true.
Proof.
  intros H. unfold test_contract in H. run H.
  all: repeat match goal with x : result _ |- _ => destruct x end.
  all: origin.
Qed.

(** X8.  When the placeholders are replaced and the exceptions raised by
    the SDK and the file system during a run are instances of
    [Exception], the script ends with exit status 0, whether or not the
    deployment or the smoke test went through. *)
Theorem failure_exits_zero (W : World) (cfg : Config) :
  placeholders_left cfg = false ->
  (forall e, In e (failures (snd (script W cfg))) ->
             isinstance e "Exception" = true) ->
  fst (script W cfg) = Exit 0.
Proof.
  intros Hp. unfold script.
  destruct (main W cfg []) as [r t] eqn:Hmain. apply main_run_sound in Hmain.
  cbn [fst snd].
  destruct Hmain as [Hp' | e td _ Hd | v td _ Hd Hv | a td rt tt _ Hd Hv Ht].
  - congruence.
  - change (EPrint main_banner :: td ++ snd (handled (Raise e)))%list
      with ([EPrint main_banner] ++ td ++ snd (handled (Raise e)))%list.
    rewrite !failures_app, handler_failures, app_nil_r. simpl failures.
    intros Hall.
    assert (Hi : isinstance e "Exception" = true).
    { destruct (deploy_contract_raise_origin _ _ _ _ _ Hd) as [Hin | Hpure];
        [| exact Hpure].
      apply Hall. simpl. exact Hin. }
    simpl. now rewrite Hi.
  - intros _. reflexivity.
  - change (EPrint main_banner :: td ++ tt ++ snd (handled rt))%list
      with ([EPrint main_banner] ++ td ++ tt ++ snd (handled rt))%list.
    rewrite !failures_app, handler_failures, app_nil_r. simpl failures.
    intros Hall. destruct rt as [u | e]; [reflexivity |].
    assert (Hi : isinstance e "Exception" = true).
    { destruct (test_contract_raise_origin _ _ _ _ _ _ Ht) as [Hin | Hpure];
        [| exact Hpure].
      apply Hall. simpl. apply in_or_app. now right. }
    simpl. now rewrite Hi.
Qed.

Lemma failure_exits_zero_witness :
  placeholders_left edited_config = false
  /\ failures (snd (script refusing_world edited_config))
     = [ClientError "Client failed with code 54: Account balance is too small"]
  /\ fst (script refusing_world edited_config) = Exit 0.
Proof.
  split; [reflexivity |]. split; [reflexivity |].
  apply (failure_exits_zero refusing_world edited_config eq_refl).
  intros e He. vm_compute in He. destruct He as [<- | []]. reflexivity.
Defined.

(** X9.  When the deployment went through and the smoke test then raises
    an [Exception], the run has printed that the contract is deployed and
    that the summary is saved, has written the summary, and ends by
    printing the exception as a failed deployment with the hint about gas,
    with exit status 0. *)
Theorem smoke_test_failure_reported_as_deployment_failure
  (W : World) (cfg : Config) (a : Z) (td tt : trace) (e : exn) :
  placeholders_left cfg = false ->
  deploy_contract W cfg [EPrint main_banner] = (Ok (Some a), td) ->
  truthy (Some a) = true ->
  test_contract W cfg a (EPrint main_banner :: td) = (Raise e, tt) ->
  isinstance e "Exception" = true ->
  fst (script W cfg) = Exit 0
  /\ In deployed_line (printed (snd (script W cfg)))
  /\ In saved_line (printed (snd (script W cfg)))
  /\ List.length (dumped (snd (script W cfg))) = 1%nat
  /\ printed (snd (script W cfg))
     = (printed (EPrint main_banner :: td ++ tt)
          ++ [failed_line e; gas_line])%list.
Proof.
  intros Hp Hd Hv Ht Hi.
  rewrite (script_of_run _ _ _ _ (run_tested W cfg a td (Raise e) tt Hp Hd Hv Ht)).
  cbn [fst snd handled]. rewrite Hi. cbn [fst snd].
  change (EPrint main_banner :: td ++ tt ++ handler_trace e)%list
    with ([EPrint main_banner] ++ td ++ tt ++ handler_trace e)%list.
  change (EPrint main_banner :: td ++ tt)%list
    with ([EPrint main_banner] ++ td ++ tt)%list.
  rewrite !printed_app, !dumped_app.
  rewrite (footprint_dumped _ (test_contract_footprint W cfg a _ _ _ Ht)).
  assert (Hdeploy : In deployed_line (printed td)
                    /\ In saved_line (printed td)
                    /\ List.length (dumped td) = 1%nat).
  { clear Ht. unfold deploy_contract in Hd. run Hd.
    cbn [printed dumped app List.length In]. auto 20. }
  destruct Hdeploy as (H1 & H2 & H3).
  split; [reflexivity |].
  split; [auto using in_or_app |]. split; [auto using in_or_app |].
  split.
  - simpl. now rewrite app_nil_r.
  - simpl. now rewrite <- !app_assoc.
Qed.

Lemma smoke_test_failure_reported_as_deployment_failure_witness :
  fst (script mint_refusing_world edited_config) = Exit 0
  /\ In deployed_line (printed (snd (script mint_refusing_world edited_config)))
  /\ In (failed_line (ClientError "Client failed with code 40: Contract error"))
        (printed (snd (script mint_refusing_world edited_config))).
Proof.
  pose (td := snd (deploy_contract mint_refusing_world edited_config
                     [EPrint main_banner])).
  pose (tt := snd (test_contract mint_refusing_world edited_config 0xadd7
                     (EPrint main_banner :: td))).
  assert (Hd : deploy_contract mint_refusing_world edited_config
                 [EPrint main_banner] = (Ok (Some 0xadd7), td)).
  { vm_compute. reflexivity. }
  assert (Ht : test_contract mint_refusing_world edited_config 0xadd7
                 (EPrint main_banner :: td)
               = (Raise (ClientError
                           "Client failed with code 40: Contract error"), tt)).
  { vm_compute. reflexivity. }
  destruct (smoke_test_failure_reported_as_deployment_failure
              mint_refusing_world edited_config 0xadd7 td tt _
              eq_refl Hd eq_refl Ht eq_refl)
    as (H0 & H1 & _ & _ & H4).
  split; [exact H0 |]. split; [exact H1 |].
  rewrite H4. apply in_or_app. right. left. reflexivity.
Defined.

(** ** What the smoke test leaves alone *)

(** X10.  [test_contract] never declares a class, never submits a deploy
    invoke, never fetches a receipt and never calls [json.dump]; the only
    file it opens is the artifact, for reading.  Its blockchain operations
    are function calls, function invokes and waits. *)
Theorem smoke_test_only_reads_and_mints
  (W : World) (cfg : Config) (a : Z) (h : trace) (r : result unit) (t : trace) :
  test_contract W cfg a h = (r, t) ->
  dumped t = []
  /\ (forall path mode answer,
         In (path, mode, answer) (opened t) ->
         path = CONTRACT_COMPILED_PATH /\ mode = "r"%string)
  /\ (forall n, In n (network t) ->
                kind_of n <> KDeclare /\ kind_of n <> KInvoke
                /\ kind_of n <> KReceipt).
Proof.
  intros H. pose proof (test_contract_footprint W cfg a _ _ _ H) as Hf.
  split; [exact (footprint_dumped _ Hf) |].
  split; [exact (footprint_opened _ Hf) |].
  intros n Hin. pose proof (footprint_network _ Hf n Hin) as Hn.
  destruct n; simpl in *; try contradiction; repeat split; discriminate.
Qed.

Lemma smoke_test_only_reads_and_mints_witness :
  dumped (snd (test_contract fine_world edited_config 0xadd7 [])) = []
  /\ map kind_of (network (snd (test_contract fine_world edited_config
                                  0xadd7 [])))
     = [ KCall "get_total_supply"; KFunctionInvoke "mint_medical_nft"; KWait;
         KCall "get_total_supply"; KCall "get_token_metadata" ].
Proof.
  split; [| reflexivity].
  exact (proj1 (smoke_test_only_reads_and_mints fine_world edited_config
                  0xadd7 [] _ _ (surjective_pairing _))).
Defined.
